(** * slstatus, components/netspeeds.c: network throughput sampler

    A shallow embedding of the two build variants of [netspeed_rx] and
    [netspeed_tx] (Linux: one sysfs file per counter; OpenBSD/FreeBSD: a
    walk over the list returned by getifaddrs), of the Linux-only
    [netspeed_rx_auto]/[netspeed_tx_auto], and of the helpers of util.c
    they call.  The function-local [static uintmax_t] variables are the
    fields of an explicit [world] that every call threads through. *)

From Stdlib Require Import ZArith List String Ascii Bool Lia.
From Stdlib Require Import DecimalString DecimalPos DecimalN Permutation.
Import ListNotations.

Local Open Scope Z_scope.

(** ** uintmax_t arithmetic

    [uintmax_t] is the 64-bit unsigned type on the targets of the file;
    every operation is written with its wrap-around. *)

Definition UINTMAX_BITS : Z := 64.
Definition UINTMAX_MOD : Z := 2 ^ UINTMAX_BITS.

Definition wrap (x : Z) : Z := x mod UINTMAX_MOD.

Definition uintmax_add (a b : Z) : Z := wrap (a + b).
Definition uintmax_sub (a b : Z) : Z := wrap (a - b).
Definition uintmax_mul (a b : Z) : Z := wrap (a * b).

(** The argument of [fmt_human] at every return site:
    [(bytes - oldbytes) * 1000 / interval], evaluated in [uintmax_t]
    ([1000] and the [unsigned int interval] are converted to it). *)
Definition netspeed_rate (bytes oldbytes interval : Z) : Z :=
  uintmax_mul (uintmax_sub bytes oldbytes) 1000 / interval.

#[global] Arguments netspeed_rate : simpl never.

(** ** Process state, effects and results *)

(** What a call does to the outside world, most recent first. *)
Inductive event : Type :=
| EvScan (path : string)        (* pscanf opened [path] *)
| EvGetifaddrs                  (* getifaddrs was called *)
| EvRunCommand (cmd : string)   (* run_command spawned [cmd] *)
| EvWarn (msg : string).        (* warn printed [msg] *)

(** [rxbytes] is the static of [netspeed_rx], [txbytes] the static of
    [netspeed_tx]; both start at zero, as C statics do. *)
Record world : Type := mkWorld {
  rxbytes : Z;
  txbytes : Z;
  trace : list event
}.

Definition initial_world : world := mkWorld 0 0 [].

Definition set_rxbytes (v : Z) (w : world) : world :=
  mkWorld v (txbytes w) (trace w).
Definition set_txbytes (v : Z) (w : world) : world :=
  mkWorld (rxbytes w) v (trace w).
Definition emit (e : event) (w : world) : world :=
  mkWorld (rxbytes w) (txbytes w) (e :: trace w).

(** A call either returns a [const char *] ([None] is NULL) or faults:
    the only faulting operation of the file is the division by
    [interval]. *)
Inductive outcome : Type :=
| Fault
| Returned (s : option string).

(** The two-state reading of a remembered sample: zero is the unset
    sentinel tested by [if (old == 0) return NULL]. *)
Inductive sampler_state : Type := NoSampleYet | HaveSample.

Definition state_of (sample : Z) : sampler_state :=
  if sample =? 0 then NoSampleYet else HaveSample.

Definition is_read (e : event) : bool :=
  match e with EvScan _ | EvGetifaddrs => true | _ => false end.

(** Number of counter reads attempted so far: files opened on Linux,
    calls of getifaddrs on BSD. *)
Definition reads (w : world) : nat := List.length (filter is_read (trace w)).

(** The two counters of an interface, one per function of the file. *)
Inductive direction : Type := Rx | Tx.

Definition sample_of (d : direction) (w : world) : Z :=
  match d with Rx => rxbytes w | Tx => txbytes w end.

(** ** util.c helpers

    [esnprintf] and [pscanf] are defined in util.c; they are modelled by
    what their callers in this file rely on. *)

(** Modelled from the spec: esnprintf of util.c.  It formats into a
    buffer of [size] bytes and returns the length written, or a negative
    value when the text with its terminator does not fit ("path cannot
    be formatted"). *)
Definition esnprintf (size : Z) (formatted : string) : Z :=
  let ret := Z.of_nat (String.length formatted) in
  if size <=? ret then -1 else ret.

(** What scanning one unsigned number ("%ju") from a file can do. *)
Inductive scan_result : Type :=
| OpenFailed            (* the file cannot be opened *)
| InputFailure          (* end of input before any conversion *)
| MatchFailure          (* the text is not a number *)
| Converted (v : Z).    (* one number converted and assigned *)

(** Modelled from the spec: pscanf of util.c, called with the single
    conversion "%ju".  It returns the number of items assigned, or a
    negative value when the file cannot be opened or read; the target is
    written only by a successful conversion.  [store] stands for the
    pointer argument. *)
Definition pscanf (fscanf_ju : string -> scan_result) (path : string)
    (store : Z -> world -> world) (w : world) : Z * world :=
  let w := emit (EvScan path) w in
  match fscanf_ju path with
  | OpenFailed => (-1, w)
  | InputFailure => (-1, w)
  | MatchFailure => (0, w)
  | Converted v => (1, store v w)
  end.

Definition PATH_MAX : Z := 4096.

(** ** The Linux variant *)

Module Linux.

(** What the operating system answers during one call. *)
Record os : Type := mkOs {
  fscanf_ju : string -> scan_result;
  run_command : string -> option string
}.

Definition rx_path (interface : string) : string :=
  ("/sys/class/net/" ++ interface ++ "/statistics/rx_bytes")%string.
Definition tx_path (interface : string) : string :=
  ("/sys/class/net/" ++ interface ++ "/statistics/tx_bytes")%string.

(** The double-quote character of the shell command below. *)
Definition dquote : string := String (ascii_of_nat 34) EmptyString.

Definition active_interface_cmd : string :=
  ("ip link show up | grep -m 1 " ++ dquote ++ "BROADCAST" ++ dquote
   ++ " | awk -F " ++ dquote ++ ": " ++ dquote ++ " '{print $2}'")%string.

Section Sampler.

(** [fmt_human] lives in util.c and [interval] in config.h: both are
    parameters of the component. *)
Variable fmt_human : Z -> Z -> string.
Variable interval : Z.

Definition netspeed_rx (o : os) (interface : string) (w : world)
  : outcome * world :=
  let oldrxbytes := rxbytes w in
  let path := rx_path interface in
  if esnprintf PATH_MAX path <? 0 then (Returned None, w)
  else
    let '(n, w) := pscanf (fscanf_ju o) path set_rxbytes w in
    if negb (n =? 1) then (Returned None, w)
    else if oldrxbytes =? 0 then (Returned None, w)
    else if interval =? 0 then (Fault, w)
    else (Returned (Some (fmt_human
                            (netspeed_rate (rxbytes w) oldrxbytes interval)
                            1024)), w).

Definition netspeed_tx (o : os) (interface : string) (w : world)
  : outcome * world :=
  let oldtxbytes := txbytes w in
  let path := tx_path interface in
  if esnprintf PATH_MAX path <? 0 then (Returned None, w)
  else
    let '(n, w) := pscanf (fscanf_ju o) path set_txbytes w in
    if negb (n =? 1) then (Returned None, w)
    else if oldtxbytes =? 0 then (Returned None, w)
    else if interval =? 0 then (Fault, w)
    else (Returned (Some (fmt_human
                            (netspeed_rate (txbytes w) oldtxbytes interval)
                            1024)), w).

Definition netspeed_get_active_interface (o : os) (w : world)
  : option string * world :=
  (run_command o active_interface_cmd,
   emit (EvRunCommand active_interface_cmd) w).

Definition netspeed_rx_auto (o : os) (w : world) : outcome * world :=
  match netspeed_get_active_interface o w with
  | (None, w) => (Returned None, w)
  | (Some interface, w) => netspeed_rx o interface w
  end.

Definition netspeed_tx_auto (o : os) (w : world) : outcome * world :=
  match netspeed_get_active_interface o w with
  | (None, w) => (Returned None, w)
  | (Some interface, w) => netspeed_tx o interface w
  end.

(** Either function, by the counter it samples. *)
Definition netspeed (d : direction)
  : os -> string -> world -> outcome * world :=
  match d with Rx => netspeed_rx | Tx => netspeed_tx end.

(** One poll of the status bar: a component function applied to an
    interface name. *)
Record call : Type := mkCall {
  call_dir : direction;
  call_interface : string
}.

(** A run of polls, each with the answers the system gives at that
    moment; the results come out in call order. *)
Fixpoint run (ticks : list (os * call)) (w : world)
  : list outcome * world :=
  match ticks with
  | [] => ([], w)
  | (o, c) :: rest =>
      let '(r, w1) := netspeed (call_dir c) o (call_interface c) w in
      let '(rs, w2) := run rest w1 in
      (r :: rs, w2)
  end.

(** The rates of a run of successful reads [cs] that starts from the
    remembered sample [prev], with the arithmetic of the code. *)
Fixpoint expected_rates (prev : Z) (cs : list Z) : list outcome :=
  match cs with
  | [] => []
  | c :: cs' =>
      (if prev =? 0 then Returned None
       else Returned (Some (fmt_human (netspeed_rate c prev interval) 1024)))
      :: expected_rates c cs'
  end.

(** The same run as the spec words it: unavailable from the unset
    sentinel, [(c - prev) * 1000 / interval] otherwise, over the
    integers. *)
Fixpoint spec_rates (prev : Z) (cs : list Z) : list outcome :=
  match cs with
  | [] => []
  | c :: cs' =>
      (if prev =? 0 then Returned None
       else Returned (Some (fmt_human ((c - prev) * 1000 / interval) 1024)))
      :: spec_rates c cs'
  end.

End Sampler.

Definition counter_path (d : direction) (interface : string) : string :=
  match d with Rx => rx_path interface | Tx => tx_path interface end.

(** The counter read of one call, both guards together: the path must
    fit the buffer and the scan must convert one number. *)
Definition sample_counter (o : os) (d : direction) (interface : string)
  : option Z :=
  let path := counter_path d interface in
  if esnprintf PATH_MAX path <? 0 then None
  else match fscanf_ju o path with
       | Converted v => Some v
       | _ => None
       end.

(** The value the static of direction [d] holds after a run: that of
    the last successful read of that direction, whatever interface it
    named. *)
Fixpoint last_sample (d : direction) (ticks : list (os * call)) (init : Z)
  : Z :=
  match ticks with
  | [] => init
  | (o, c) :: rest =>
      last_sample d rest
        (match call_dir c, d with
         | Rx, Rx | Tx, Tx =>
             match sample_counter o d (call_interface c) with
             | Some v => v
             | None => init
             end
         | _, _ => init
         end)
  end.

(** Consecutive samples that neither decrease nor differ by so much
    that the product with 1000 leaves [uintmax_t]. *)
Fixpoint steady (prev : Z) (cs : list Z) : Prop :=
  match cs with
  | [] => True
  | c :: cs' => (prev <= c /\ (c - prev) * 1000 < UINTMAX_MOD) /\ steady c cs'
  end.

(** *** The sampler state as the spec words it

    One remembered sample per (interface, direction), to be compared
    with the single static per function of the code. *)

Definition sample_table : Type := direction -> string -> Z.

Definition empty_table : sample_table := fun _ _ => 0.

Definition direction_eqb (a b : direction) : bool :=
  match a, b with Rx, Rx | Tx, Tx => true | _, _ => false end.

Definition table_set (d : direction) (interface : string) (v : Z)
    (t : sample_table) : sample_table :=
  fun d' i' =>
    if direction_eqb d' d && String.eqb i' interface then v else t d' i'.

Section PerInterface.

Variable fmt_human : Z -> Z -> string.
Variable interval : Z.

Definition per_interface_step (o : os) (c : call) (t : sample_table)
  : outcome * sample_table :=
  let d := call_dir c in
  let i := call_interface c in
  match sample_counter o d i with
  | None => (Returned None, t)
  | Some cur =>
      (if t d i =? 0 then Returned None
       else if interval =? 0 then Fault
       else Returned (Some (fmt_human (netspeed_rate cur (t d i) interval)
                              1024)),
       table_set d i cur t)
  end.

Fixpoint per_interface_run (ticks : list (os * call)) (t : sample_table)
  : list outcome :=
  match ticks with
  | [] => []
  | (o, c) :: rest =>
      let '(r, t1) := per_interface_step o c t in
      r :: per_interface_run rest t1
  end.

End PerInterface.

(** A system whose counter files are the listed ones; any other path
    cannot be opened. *)
Definition files (l : list (string * scan_result)) (path : string)
  : scan_result :=
  match find (fun kv => String.eqb (fst kv) path) l with
  | Some kv => snd kv
  | None => OpenFailed
  end.

Definition rx_file (interface : string) (v : Z) : string * scan_result :=
  (rx_path interface, Converted v).
Definition tx_file (interface : string) (v : Z) : string * scan_result :=
  (tx_path interface, Converted v).

Definition system (l : list (string * scan_result))
    (active : option string) : os :=
  mkOs (files l) (fun _ => active).

End Linux.

(** ** The OpenBSD / FreeBSD variant *)

Module BSD.

Record if_data : Type := mkIfData {
  ifi_ibytes : Z;
  ifi_obytes : Z
}.

(** One node of the list built by getifaddrs; [ifa_data] may be NULL. *)
Record ifaddrs : Type := mkIfaddrs {
  ifa_name : string;
  ifa_data : option if_data
}.

(** What the operating system answers during one call: [None] is the
    failure of getifaddrs, [Some ifal] the list it built. *)
Record os : Type := mkOs {
  getifaddrs : option (list ifaddrs)
}.

(** The [for (ifa = ifal; ifa; ifa = ifa->ifa_next)] loop of
    [netspeed_rx]: it adds into the static itself. *)
Fixpoint rx_walk (interface : string) (ifa : list ifaddrs)
    (w : world) (if_ok : bool) : world * bool :=
  match ifa with
  | [] => (w, if_ok)
  | a :: ifa_next =>
      match String.eqb (ifa_name a) interface, ifa_data a with
      | true, Some ifd =>
          rx_walk interface ifa_next
            (set_rxbytes (uintmax_add (rxbytes w) (ifi_ibytes ifd)) w) true
      | _, _ => rx_walk interface ifa_next w if_ok
      end
  end.

Fixpoint tx_walk (interface : string) (ifa : list ifaddrs)
    (w : world) (if_ok : bool) : world * bool :=
  match ifa with
  | [] => (w, if_ok)
  | a :: ifa_next =>
      match String.eqb (ifa_name a) interface, ifa_data a with
      | true, Some ifd =>
          tx_walk interface ifa_next
            (set_txbytes (uintmax_add (txbytes w) (ifi_obytes ifd)) w) true
      | _, _ => tx_walk interface ifa_next w if_ok
      end
  end.

Section Sampler.

Variable fmt_human : Z -> Z -> string.
Variable interval : Z.

Definition netspeed_rx (o : os) (interface : string) (w : world)
  : outcome * world :=
  let oldrxbytes := rxbytes w in
  let w := emit EvGetifaddrs w in
  match getifaddrs o with
  | None => (Returned None, emit (EvWarn "getifaddrs failed") w)
  | Some ifal =>
      let w := set_rxbytes 0 w in
      let '(w, if_ok) := rx_walk interface ifal w false in
      if negb if_ok
      then (Returned None, emit (EvWarn "reading 'if_data' failed") w)
      else if oldrxbytes =? 0 then (Returned None, w)
      else if interval =? 0 then (Fault, w)
      else (Returned (Some (fmt_human
                              (netspeed_rate (rxbytes w) oldrxbytes interval)
                              1024)), w)
  end.

Definition netspeed_tx (o : os) (interface : string) (w : world)
  : outcome * world :=
  let oldtxbytes := txbytes w in
  let w := emit EvGetifaddrs w in
  match getifaddrs o with
  | None => (Returned None, emit (EvWarn "getifaddrs failed") w)
  | Some ifal =>
      let w := set_txbytes 0 w in
      let '(w, if_ok) := tx_walk interface ifal w false in
      if negb if_ok
      then (Returned None, emit (EvWarn "reading 'if_data' failed") w)
      else if oldtxbytes =? 0 then (Returned None, w)
      else if interval =? 0 then (Fault, w)
      else (Returned (Some (fmt_human
                              (netspeed_rate (txbytes w) oldtxbytes interval)
                              1024)), w)
  end.

Definition netspeed (d : direction)
  : os -> string -> world -> outcome * world :=
  match d with Rx => netspeed_rx | Tx => netspeed_tx end.

End Sampler.

(** The nodes the loops add up: the name matches and the statistics
    are present. *)
Definition counted (interface : string) (a : ifaddrs) : bool :=
  String.eqb (ifa_name a) interface
  && match ifa_data a with Some _ => true | None => false end.

Definition bytes_of (d : direction) (a : ifaddrs) : Z :=
  match ifa_data a with
  | Some ifd => match d with Rx => ifi_ibytes ifd | Tx => ifi_obytes ifd end
  | None => 0
  end.

Definition sum_bytes (d : direction) (l : list ifaddrs) (acc : Z) : Z :=
  fold_left (fun acc a => uintmax_add acc (bytes_of d a)) l acc.

(** The counter read of one call: it fails when getifaddrs fails or no
    node is counted, and is the wrapped sum of the counted nodes
    otherwise. *)
Definition sample_counter (o : os) (d : direction) (interface : string)
  : option Z :=
  match getifaddrs o with
  | None => None
  | Some ifal =>
      if existsb (counted interface) ifal
      then Some (sum_bytes d (filter (counted interface) ifal) 0)
      else None
  end.

End BSD.

(** ** format_human

    Modelled from the spec: fmt_human of util.c, which is not among the
    sources.  The spec has it scale the byte rate by [base] until the
    magnitude is below [base], pick the unit suffix of that level
    (B, K, M, G, ...) and render the magnitude with one decimal place.
    The magnitude is kept exact, as the fraction [num / den] with
    [den = base ^ level]; the spec does not say how the decimal is
    rounded, so both ways are modelled. *)

Inductive rounding : Type := RoundDown | RoundNearest.

(** The scaling loop: while [num / den >= base], move one unit up. *)
Fixpoint scale (fuel : nat) (base num den : Z) (level : nat) : Z * nat :=
  match fuel with
  | O => (den, level)
  | S fuel' =>
      if base * den <=? num
      then scale fuel' base num (base * den) (S level)
      else (den, level)
  end.

(** More steps than the loop can take for a base of at least two. *)
Definition scale_fuel (num : Z) : nat := S (Z.to_nat (Z.log2 num)).

Definition scaled (base num : Z) : Z * nat :=
  scale (scale_fuel num) base num 1 0.

Definition unit_level (base num : Z) : nat := snd (scaled base num).
Definition unit_size (base num : Z) : Z := fst (scaled base num).

(** The magnitude [num / den] in tenths. *)
Definition tenths (r : rounding) (num den : Z) : Z :=
  match r with
  | RoundDown => (10 * num) / den
  | RoundNearest => (20 * num + den) / (2 * den)
  end.

Definition decimal (n : Z) : string :=
  NilZero.string_of_uint (N.to_uint (Z.to_N n)).

Definition numeral_of_tenths (t : Z) : string :=
  (decimal (t / 10) ++ "." ++ decimal (t mod 10))%string.

Definition numeral (r : rounding) (base num : Z) : string :=
  numeral_of_tenths (tenths r num (unit_size base num)).

(** The spec names B, K, M and G; the SI letters continue the list. *)
Definition suffixes : list string :=
  ["B"; "K"; "M"; "G"; "T"; "P"; "E"; "Z"; "Y"]%string.

Definition suffix (level : nat) : string := nth level suffixes "Y"%string.

Definition format_human (r : rounding) (num base : Z) : string :=
  (numeral r base num ++ suffix (unit_level base num))%string.


(** ** Concrete systems

    The formatter and the machines used to run the model on inputs. *)

(** [fmt_human] as the spec describes it, rounding to nearest. *)
Definition fmt_human_model (num base : Z) : string :=
  format_human RoundNearest num base.

(** A Linux machine whose interface eth0 has received [v] bytes. *)
Definition eth0_at (v : Z) : Linux.os :=
  Linux.system [Linux.rx_file "eth0" v] None.

(** A Linux machine with two interfaces. *)
Definition eth0_wlan0_at (e v : Z) : Linux.os :=
  Linux.system [Linux.rx_file "eth0" e; Linux.rx_file "wlan0" v] None.

Definition poll_rx (o : Linux.os) (interface : string)
  : Linux.os * Linux.call :=
  (o, Linux.mkCall Rx interface).

(** A BSD machine whose only interface, em0, has the given counters. *)
Definition em0_at (rx tx : Z) : BSD.os :=
  BSD.mkOs (Some [BSD.mkIfaddrs "em0" (Some (BSD.mkIfData rx tx))]).

(** Two interfaces polled in turn, twice each: eth0 goes from 1000 to
    1500 bytes and wlan0 from 5000 to 5600. *)
Definition interleaved_polls : list (Linux.os * Linux.call) :=
  [poll_rx (eth0_wlan0_at 1000 5000) "eth0";
   poll_rx (eth0_wlan0_at 1000 5000) "wlan0";
   poll_rx (eth0_wlan0_at 1500 5600) "eth0";
   poll_rx (eth0_wlan0_at 1500 5600) "wlan0"].

(** A BSD machine with em0 and wlan0. *)
Definition em0_wlan0_at (e v : Z) : BSD.os :=
  BSD.mkOs (Some [BSD.mkIfaddrs "em0" (Some (BSD.mkIfData e e));
                  BSD.mkIfaddrs "wlan0" (Some (BSD.mkIfData v v))]).

(** ** Vocabulary for the properties of the whole file *)

(** The bytes of the nodes a BSD call counts for [interface], added up
    over the integers. *)
Definition bsd_total_bytes (d : direction) (interface : string)
    (ifal : list BSD.ifaddrs) : Z :=
  fold_right Z.add 0
    (map (BSD.bytes_of d) (filter (BSD.counted interface) ifal)).

(** Two worlds whose statics agree; their traces may differ. *)
Definition same_statics (w w' : world) : Prop :=
  rxbytes w = rxbytes w' /\ txbytes w = txbytes w'.

(** A run of polls on the BSD variant, as [Linux.run] on the Linux
    one. *)
Fixpoint bsd_run (fmt_human : Z -> Z -> string) (interval : Z)
    (ticks : list (BSD.os * Linux.call)) (w : world)
  : list outcome * world :=
  match ticks with
  | [] => ([], w)
  | (o, c) :: rest =>
      let '(r, w1) := BSD.netspeed fmt_human interval (Linux.call_dir c) o
                        (Linux.call_interface c) w in
      let '(rs, w2) := bsd_run fmt_human interval rest w1 in
      (r :: rs, w2)
  end.

(** The value of the last read of direction [d] that succeeded during
    a run, if any did; [read] is the counter read of the variant. *)
Fixpoint last_read {os : Type} (read : os -> direction -> string -> option Z)
    (d : direction) (ticks : list (os * Linux.call)) : option Z :=
  match ticks with
  | [] => None
  | (o, c) :: rest =>
      match last_read read d rest with
      | Some v => Some v
      | None =>
          if Linux.direction_eqb (Linux.call_dir c) d
          then read o d (Linux.call_interface c)
          else None
      end
  end.

Definition poll_bsd (o : BSD.os) (interface : string)
  : BSD.os * Linux.call :=
  (o, Linux.mkCall Rx interface).


Definition is_spawn (e : event) : bool :=
  match e with EvRunCommand _ => true | _ => false end.

(** Number of external commands spawned so far. *)
Definition spawns (w : world) : nat :=
  List.length (filter is_spawn (trace w)).

(** An interface name of [n] characters. *)
Fixpoint name_of_length (n : nat) : string :=
  match n with
  | O => EmptyString
  | S n' => String "e"%char (name_of_length n')
  end.

(** A Linux machine with eth0 readable in both directions, on which
    the discovery command prints [active]. *)
Definition eth0_both_at (rx tx : Z) (active : option string) : Linux.os :=
  Linux.system [Linux.rx_file "eth0" rx; Linux.tx_file "eth0" tx] active.

(** A BSD machine whose list holds two nodes for em0 with statistics,
    one without, and one node for lo0. *)
Definition em0_twice (a b : Z) : list BSD.ifaddrs :=
  [BSD.mkIfaddrs "em0" (Some (BSD.mkIfData a a));
   BSD.mkIfaddrs "lo0" (Some (BSD.mkIfData 77 77));
   BSD.mkIfaddrs "em0" None;
   BSD.mkIfaddrs "em0" (Some (BSD.mkIfData b b))].

Definition em0_twice_at (a b : Z) : BSD.os :=
  BSD.mkOs (Some (em0_twice a b)).

(** * Properties *)

(** ** Arithmetic of the rate expression *)

Lemma UINTMAX_MOD_pos : 0 < UINTMAX_MOD.
Proof. reflexivity. Qed.

Lemma wrap_small (x : Z) : 0 <= x < UINTMAX_MOD -> wrap x = x.
Proof. intros H. unfold wrap. now apply Z.mod_small. Qed.

Lemma netspeed_rate_unfold (cur old interval : Z) :
  netspeed_rate cur old interval
  = (((cur - old) mod 2 ^ 64) * 1000) mod 2 ^ 64 / interval.
Proof. reflexivity. Qed.

(** Without wrap-around the expression is the integer one. *)
Lemma netspeed_rate_exact (cur old interval : Z) :
  old <= cur -> (cur - old) * 1000 < UINTMAX_MOD ->
  netspeed_rate cur old interval = (cur - old) * 1000 / interval.
Proof.
  intros Hle Hmul. unfold netspeed_rate, uintmax_mul, uintmax_sub.
  assert (Hd : 0 <= cur - old < UINTMAX_MOD) by lia.
  rewrite (wrap_small (cur - old)) by exact Hd.
  rewrite wrap_small by lia. reflexivity.
Qed.


(** ** Linux: what one call does *)

Section LinuxCall.

Variable fmt_human : Z -> Z -> string.
Variable interval : Z.

Local Abbreviation netspeed := (Linux.netspeed fmt_human interval).

(** The result of a call, by the outcome of the read and the
    remembered sample. *)
Lemma linux_result (d : direction) (o : Linux.os) (i : string) (w : world) :
  fst (netspeed d o i w)
  = match Linux.sample_counter o d i with
    | None => Returned None
    | Some cur =>
        if sample_of d w =? 0 then Returned None
        else if interval =? 0 then Fault
        else Returned (Some (fmt_human
                               (netspeed_rate cur (sample_of d w) interval)
                               1024))
    end.
Proof.
  destruct d; unfold Linux.netspeed, Linux.netspeed_rx, Linux.netspeed_tx,
    Linux.sample_counter, Linux.counter_path, pscanf; cbn [sample_of];
  destruct (esnprintf PATH_MAX _ <? 0); try reflexivity;
  destruct (Linux.fscanf_ju o _); simpl; try reflexivity;
  destruct (_ =? 0); try reflexivity;
  destruct (interval =? 0); reflexivity.
Qed.

(** The remembered sample after a call: the value read, or the old one
    when the read failed. *)
Lemma linux_sample (d : direction) (o : Linux.os) (i : string) (w : world) :
  sample_of d (snd (netspeed d o i w))
  = match Linux.sample_counter o d i with
    | None => sample_of d w
    | Some cur => cur
    end.
Proof.
  destruct d; unfold Linux.netspeed, Linux.netspeed_rx, Linux.netspeed_tx,
    Linux.sample_counter, Linux.counter_path, pscanf; cbn [sample_of];
  destruct (esnprintf PATH_MAX _ <? 0); try reflexivity;
  destruct (Linux.fscanf_ju o _); simpl; try reflexivity;
  destruct (_ =? 0); try reflexivity;
  destruct (interval =? 0); reflexivity.
Qed.

(** A call never writes the static of the other function. *)
Lemma linux_other (d d' : direction) (o : Linux.os) (i : string) (w : world) :
  d <> d' -> sample_of d' (snd (netspeed d o i w)) = sample_of d' w.
Proof.
  intros Hd.
  destruct d, d'; try congruence;
  unfold Linux.netspeed, Linux.netspeed_rx, Linux.netspeed_tx, pscanf;
  cbn [sample_of];
  destruct (esnprintf PATH_MAX _ <? 0); try reflexivity;
  destruct (Linux.fscanf_ju o _); simpl; try reflexivity;
  destruct (_ =? 0); try reflexivity;
  destruct (interval =? 0); reflexivity.
Qed.

(** A call opens its counter file once when the path fits, and not at
    all otherwise. *)
Lemma linux_reads (d : direction) (o : Linux.os) (i : string) (w : world) :
  reads (snd (netspeed d o i w))
  = if esnprintf PATH_MAX (Linux.counter_path d i) <? 0
    then reads w else S (reads w).
Proof.
  destruct d; unfold Linux.netspeed, Linux.netspeed_rx, Linux.netspeed_tx,
    Linux.counter_path, pscanf, reads;
  destruct (esnprintf PATH_MAX _ <? 0); try reflexivity;
  destruct (Linux.fscanf_ju o _); simpl; try reflexivity;
  destruct (_ =? 0); try reflexivity;
  destruct (interval =? 0); reflexivity.
Qed.

End LinuxCall.

(** ** BSD: what one call does *)

Lemma set_rxbytes_same (w : world) : set_rxbytes (rxbytes w) w = w.
Proof. now destruct w. Qed.

Lemma set_txbytes_same (w : world) : set_txbytes (txbytes w) w = w.
Proof. now destruct w. Qed.

(** The receive loop leaves in the static the wrapped sum of the
    counted nodes, added to what it held, and raises [if_ok] when there
    is such a node. *)
Lemma rx_walk_sum (i : string) (ifal : list BSD.ifaddrs) :
  forall (w : world) (ok : bool),
  BSD.rx_walk i ifal w ok
  = (set_rxbytes (BSD.sum_bytes Rx (filter (BSD.counted i) ifal) (rxbytes w)) w,
     ok || existsb (BSD.counted i) ifal).
Proof.
  induction ifal as [|a rest IH]; intros w ok;
    cbn [BSD.rx_walk filter existsb].
  - unfold BSD.sum_bytes. simpl.
    now rewrite set_rxbytes_same, orb_false_r.
  - destruct (String.eqb (BSD.ifa_name a) i) eqn:He;
      destruct (BSD.ifa_data a) as [ifd|] eqn:Hd;
      unfold BSD.counted at 1 4; rewrite He, Hd; cbn [andb orb];
      rewrite IH; try reflexivity.
    assert (Hb : BSD.bytes_of Rx a = BSD.ifi_ibytes ifd)
      by (unfold BSD.bytes_of; now rewrite Hd).
    unfold BSD.sum_bytes. cbn [fold_left]. rewrite Hb. simpl.
    now rewrite orb_true_r.
Qed.

Lemma tx_walk_sum (i : string) (ifal : list BSD.ifaddrs) :
  forall (w : world) (ok : bool),
  BSD.tx_walk i ifal w ok
  = (set_txbytes (BSD.sum_bytes Tx (filter (BSD.counted i) ifal) (txbytes w)) w,
     ok || existsb (BSD.counted i) ifal).
Proof.
  induction ifal as [|a rest IH]; intros w ok;
    cbn [BSD.tx_walk filter existsb].
  - unfold BSD.sum_bytes. simpl.
    now rewrite set_txbytes_same, orb_false_r.
  - destruct (String.eqb (BSD.ifa_name a) i) eqn:He;
      destruct (BSD.ifa_data a) as [ifd|] eqn:Hd;
      unfold BSD.counted at 1 4; rewrite He, Hd; cbn [andb orb];
      rewrite IH; try reflexivity.
    assert (Hb : BSD.bytes_of Tx a = BSD.ifi_obytes ifd)
      by (unfold BSD.bytes_of; now rewrite Hd).
    unfold BSD.sum_bytes. cbn [fold_left]. rewrite Hb. simpl.
    now rewrite orb_true_r.
Qed.

Section BSDCall.

Variable fmt_human : Z -> Z -> string.
Variable interval : Z.

Local Abbreviation netspeed := (BSD.netspeed fmt_human interval).

Lemma bsd_result (d : direction) (o : BSD.os) (i : string) (w : world) :
  fst (netspeed d o i w)
  = match BSD.sample_counter o d i with
    | None => Returned None
    | Some cur =>
        if sample_of d w =? 0 then Returned None
        else if interval =? 0 then Fault
        else Returned (Some (fmt_human
                               (netspeed_rate cur (sample_of d w) interval)
                               1024))
    end.
Proof.
  destruct d; unfold BSD.netspeed, BSD.netspeed_rx, BSD.netspeed_tx,
    BSD.sample_counter; cbn [sample_of];
  (destruct (BSD.getifaddrs o) as [ifal|]; [|reflexivity]);
  rewrite ?rx_walk_sum, ?tx_walk_sum; simpl;
  destruct (existsb (BSD.counted i) ifal); simpl; try reflexivity;
  destruct (_ =? 0); try reflexivity;
  destruct (interval =? 0); reflexivity.
Qed.

(** The static after a call: untouched when getifaddrs fails, and
    otherwise the sum over the counted nodes, which is zero when there
    is none. *)
Lemma bsd_sample (d : direction) (o : BSD.os) (i : string) (w : world) :
  sample_of d (snd (netspeed d o i w))
  = match BSD.getifaddrs o with
    | None => sample_of d w
    | Some ifal => BSD.sum_bytes d (filter (BSD.counted i) ifal) 0
    end.
Proof.
  destruct d; unfold BSD.netspeed, BSD.netspeed_rx, BSD.netspeed_tx;
  cbn [sample_of];
  (destruct (BSD.getifaddrs o) as [ifal|]; [|reflexivity]);
  rewrite ?rx_walk_sum, ?tx_walk_sum; simpl;
  destruct (existsb (BSD.counted i) ifal); simpl; try reflexivity;
  destruct (_ =? 0); try reflexivity;
  destruct (interval =? 0); reflexivity.
Qed.

(** A call asks getifaddrs exactly once. *)
Lemma bsd_reads (d : direction) (o : BSD.os) (i : string) (w : world) :
  reads (snd (netspeed d o i w)) = S (reads w).
Proof.
  destruct d; unfold BSD.netspeed, BSD.netspeed_rx, BSD.netspeed_tx, reads;
  (destruct (BSD.getifaddrs o) as [ifal|]; [|reflexivity]);
  rewrite ?rx_walk_sum, ?tx_walk_sum; simpl;
  destruct (existsb (BSD.counted i) ifal); simpl; try reflexivity;
  destruct (_ =? 0); try reflexivity;
  destruct (interval =? 0); reflexivity.
Qed.

End BSDCall.

(** ** Linux: runs of calls *)

Section LinuxRun.

Variable fmt_human : Z -> Z -> string.
Variable interval : Z.

Local Abbreviation netspeed := (Linux.netspeed fmt_human interval).
Local Abbreviation run := (Linux.run fmt_human interval).

Lemma run_cons (o : Linux.os) (c : Linux.call)
    (rest : list (Linux.os * Linux.call)) (w : world) :
  run ((o, c) :: rest) w
  = (fst (netspeed (Linux.call_dir c) o (Linux.call_interface c) w)
       :: fst (run rest
                 (snd (netspeed (Linux.call_dir c) o
                         (Linux.call_interface c) w))),
     snd (run rest
            (snd (netspeed (Linux.call_dir c) o (Linux.call_interface c) w)))).
Proof.
  simpl. destruct (Linux.netspeed _ _ _ _ _ _) as [r w1]. simpl.
  now destruct (Linux.run _ _ rest w1).
Qed.

(** After a run the static of each direction holds the last value
    read for that direction. *)
Lemma run_last_sample (d : direction) (ticks : list (Linux.os * Linux.call)) :
  forall w : world,
  sample_of d (snd (run ticks w)) = Linux.last_sample d ticks (sample_of d w).
Proof.
  induction ticks as [|[o c] rest IH]; intros w.
  - reflexivity.
  - rewrite run_cons. cbn [snd Linux.last_sample]. rewrite IH. f_equal.
    destruct (Linux.call_dir c) eqn:Hc, d;
      first [ apply linux_sample | apply linux_other; discriminate ].
Qed.

(** A run of successful reads in one direction produces the rates of
    consecutive samples. *)
Lemma run_expected (d : direction) (ticks : list (Linux.os * Linux.call))
    (cs : list Z) :
  0 < interval ->
  Forall2 (fun t c => Linux.call_dir (snd t) = d
                      /\ Linux.sample_counter (fst t) d
                           (Linux.call_interface (snd t)) = Some c)
          ticks cs ->
  forall w : world,
  fst (run ticks w)
  = Linux.expected_rates fmt_human interval (sample_of d w) cs.
Proof.
  intros Hpos Hall. induction Hall as [|[o c] v rest cs' [Hd Hread] _ IH];
    intros w.
  - reflexivity.
  - simpl fst in Hd, Hread. simpl snd in Hd, Hread.
    rewrite run_cons. cbn [fst Linux.expected_rates]. rewrite Hd.
    rewrite linux_result, Hread, IH, linux_sample, Hread.
    f_equal. destruct (sample_of d w =? 0); [reflexivity|].
    destruct (interval =? 0) eqn:Hi; [lia | reflexivity].
Qed.

(** On samples that never decrease nor jump too far, the rates are
    those of the integer formula. *)
Lemma expected_rates_steady (cs : list Z) :
  forall prev : Z,
  Linux.steady prev cs ->
  Linux.expected_rates fmt_human interval prev cs
  = Linux.spec_rates fmt_human interval prev cs.
Proof.
  induction cs as [|c cs' IH]; intros prev Hs.
  - reflexivity.
  - destruct Hs as [[Hle Hmul] Hs']. simpl.
    rewrite netspeed_rate_exact by assumption.
    now rewrite IH.
Qed.

(** Once a nonzero sample is held, it stays nonzero for as long as no
    read stores zero. *)
Lemma last_sample_nonzero (d : direction)
    (ticks : list (Linux.os * Linux.call)) :
  Forall (fun t => Linux.call_dir (snd t) = d ->
                   Linux.sample_counter (fst t) d
                     (Linux.call_interface (snd t)) <> Some 0) ticks ->
  forall init : Z, init <> 0 -> Linux.last_sample d ticks init <> 0.
Proof.
  induction 1 as [|[o c] rest Hnz _ IH]; intros init Hinit.
  - exact Hinit.
  - simpl in *. apply IH.
    destruct (Linux.call_dir c), d; try exact Hinit;
      destruct (Linux.sample_counter o _ _) as [v|]; try exact Hinit;
      intros ->; now apply Hnz.
Qed.

Lemma state_of_nonzero (v : Z) : state_of v = HaveSample <-> v <> 0.
Proof.
  unfold state_of. destruct (Z.eqb_spec v 0); split; intros H;
    try reflexivity; try discriminate; try assumption; contradiction.
Qed.

End LinuxRun.

(** ** format_human: the scaling loop *)

Section Scaling.

Variable base : Z.
Hypothesis base_ge_2 : 2 <= base.

















End Scaling.


(** * The claims *)

(** C1, as the code has it.  With a positive interval, a call whose
    read succeeds with [cur] while a nonzero sample [old] is remembered
    returns [fmt_human] (base 1024) of the rate evaluated in 64-bit
    unsigned arithmetic: the difference and its product with 1000 both
    wrap before the division.  That value is the integer
    [(cur - old) * 1000 / interval] whenever [old <= cur] and the
    product stays below [2^64].  Over a run of successful reads of one
    direction each tick whose predecessor is nonzero yields the rate of
    the two consecutive samples, and the first tick from the unset
    state yields none. *)
Theorem rate_of_successful_read :
  forall (fmt_human : Z -> Z -> string) (interval : Z),
  0 < interval ->
  (forall o i w cur,
     rxbytes w <> 0 -> Linux.sample_counter o Rx i = Some cur ->
     fst (Linux.netspeed_rx fmt_human interval o i w)
     = Returned (Some (fmt_human
         ((((cur - rxbytes w) mod 2 ^ 64) * 1000) mod 2 ^ 64 / interval)
         1024)))
  /\ (forall o i w cur,
     txbytes w <> 0 -> Linux.sample_counter o Tx i = Some cur ->
     fst (Linux.netspeed_tx fmt_human interval o i w)
     = Returned (Some (fmt_human
         ((((cur - txbytes w) mod 2 ^ 64) * 1000) mod 2 ^ 64 / interval)
         1024)))
  /\ (forall cur old,
     old <= cur -> (cur - old) * 1000 < 2 ^ 64 ->
     (((cur - old) mod 2 ^ 64) * 1000) mod 2 ^ 64 / interval
     = (cur - old) * 1000 / interval)
  /\ (forall d ticks cs w,
     Forall2 (fun t c => Linux.call_dir (snd t) = d
                         /\ Linux.sample_counter (fst t) d
                              (Linux.call_interface (snd t)) = Some c)
             ticks cs ->
     fst (Linux.run fmt_human interval ticks w)
     = Linux.expected_rates fmt_human interval (sample_of d w) cs
     /\ (Linux.steady (sample_of d w) cs ->
         fst (Linux.run fmt_human interval ticks w)
         = Linux.spec_rates fmt_human interval (sample_of d w) cs)).
Proof.
  intros fmt_human interval Hpos.
  assert (Hcall : forall d o i w cur,
    sample_of d w <> 0 -> Linux.sample_counter o d i = Some cur ->
    fst (Linux.netspeed fmt_human interval d o i w)
    = Returned (Some (fmt_human
        (netspeed_rate cur (sample_of d w) interval) 1024))).
  { intros d o i w cur Hold Hread. rewrite linux_result, Hread.
    destruct (Z.eqb_spec (sample_of d w) 0); [contradiction|].
    destruct (Z.eqb_spec interval 0); [lia | reflexivity]. }
  split; [|split; [|split]].
  - intros o i w cur Hold Hread. exact (Hcall Rx o i w cur Hold Hread).
  - intros o i w cur Hold Hread. exact (Hcall Tx o i w cur Hold Hread).
  - intros cur old Hle Hmul.
    rewrite <- netspeed_rate_unfold. now apply netspeed_rate_exact.
  - intros d ticks cs w Hall.
    pose proof (run_expected fmt_human interval d ticks cs Hpos Hall w) as He.
    split; [exact He|].
    intros Hs. rewrite He. now apply expected_rates_steady.
Qed.

(** The example of the spec: from the unset state, 500000 then 1550000
    bytes, one second apart. *)
Lemma rate_of_successful_read_witness :
  0 < 1000
  /\ fst (Linux.run fmt_human_model 1000
            [poll_rx (eth0_at 500000) "eth0"; poll_rx (eth0_at 1550000) "eth0"]
            initial_world)
     = [Returned None; Returned (Some "1.0M"%string)].
Proof.
  split; [lia|].
  destruct (rate_of_successful_read fmt_human_model 1000 ltac:(lia))
    as (_ & _ & _ & Hrun).
  destruct (Hrun Rx
              [poll_rx (eth0_at 500000) "eth0";
               poll_rx (eth0_at 1550000) "eth0"]
              [500000; 1550000] initial_world) as [He _].
  - constructor; [split; [reflexivity | vm_compute; reflexivity]|].
    constructor; [split; [reflexivity | vm_compute; reflexivity]|].
    constructor.
  - rewrite He. vm_compute. reflexivity.
Defined.

(** C1 as stated fails where the product with 1000 leaves 64 bits:
    with 1 remembered and 2^63 + 1 read, one second apart, the integer
    formula gives 2^63 bytes per second and the code formats 0. *)
Lemma rate_of_successful_read_counterexample :
  let o := eth0_at (2 ^ 63 + 1) in
  let w := mkWorld 1 0 [] in
  rxbytes w <> 0
  /\ Linux.sample_counter o Rx "eth0" = Some (2 ^ 63 + 1)
  /\ fst (Linux.netspeed_rx fmt_human_model 1000 o "eth0" w)
     = Returned (Some (fmt_human_model 0 1024))
  /\ fmt_human_model 0 1024 = "0.0B"%string
  /\ fmt_human_model ((2 ^ 63 + 1 - rxbytes w) * 1000 / 1000) 1024
     = "8.0E"%string
  /\ fst (Linux.netspeed_rx fmt_human_model 1000 o "eth0" w)
     <> Returned (Some (fmt_human_model
                          ((2 ^ 63 + 1 - rxbytes w) * 1000 / 1000) 1024)).
Proof.
  cbv zeta.
  split; [discriminate|].
  split; [vm_compute; reflexivity|].
  split; [vm_compute; reflexivity|].
  split; [vm_compute; reflexivity|].
  split; [vm_compute; reflexivity|].
  vm_compute. discriminate.
Qed.

(** C2.  A call that finds the unset sentinel 0 in its static returns
    NULL, whatever the read does, on both build variants; in
    particular the first call of a fresh process returns NULL even when
    its read succeeds. *)
Theorem unset_sample_is_unavailable :
  forall (fmt_human : Z -> Z -> string) (interval : Z),
  (forall o i w, rxbytes w = 0 ->
     fst (Linux.netspeed_rx fmt_human interval o i w) = Returned None)
  /\ (forall o i w, txbytes w = 0 ->
     fst (Linux.netspeed_tx fmt_human interval o i w) = Returned None)
  /\ (forall o i,
     fst (Linux.netspeed_rx fmt_human interval o i initial_world)
     = Returned None
     /\ fst (Linux.netspeed_tx fmt_human interval o i initial_world)
        = Returned None)
  /\ (forall o i w, rxbytes w = 0 ->
     fst (BSD.netspeed_rx fmt_human interval o i w) = Returned None)
  /\ (forall o i w, txbytes w = 0 ->
     fst (BSD.netspeed_tx fmt_human interval o i w) = Returned None).
Proof.
  intros fmt_human interval.
  assert (Hlinux : forall d o i w, sample_of d w = 0 ->
    fst (Linux.netspeed fmt_human interval d o i w) = Returned None).
  { intros d o i w Hold. rewrite linux_result, Hold.
    now destruct (Linux.sample_counter o d i). }
  assert (Hbsd : forall d o i w, sample_of d w = 0 ->
    fst (BSD.netspeed fmt_human interval d o i w) = Returned None).
  { intros d o i w Hold. rewrite bsd_result, Hold.
    now destruct (BSD.sample_counter o d i). }
  split; [|split; [|split; [|split]]].
  - intros o i w. exact (Hlinux Rx o i w).
  - intros o i w. exact (Hlinux Tx o i w).
  - intros o i. split.
    + exact (Hlinux Rx o i initial_world eq_refl).
    + exact (Hlinux Tx o i initial_world eq_refl).
  - intros o i w. exact (Hbsd Rx o i w).
  - intros o i w. exact (Hbsd Tx o i w).
Qed.

(** A first read of 500000 bytes succeeds and still yields no rate. *)
Lemma unset_sample_is_unavailable_witness :
  rxbytes initial_world = 0
  /\ Linux.sample_counter (eth0_at 500000) Rx "eth0" = Some 500000
  /\ fst (Linux.netspeed_rx fmt_human_model 1000 (eth0_at 500000) "eth0"
            initial_world)
     = Returned None.
Proof.
  split; [reflexivity|]. split; [vm_compute; reflexivity|].
  destruct (unset_sample_is_unavailable fmt_human_model 1000) as [Hrx _].
  exact (Hrx (eth0_at 500000) "eth0"%string initial_world eq_refl).
Defined.

(** C3, as the code has it.  Each function keeps one static for all
    interfaces: after any run of calls the static of a direction holds
    the value of the last successful read of that direction, whichever
    interface it named, and the next call of that direction computes
    its rate against that value.  Calls of the other direction do not
    count. *)
Theorem sample_is_kept_per_direction :
  forall (fmt_human : Z -> Z -> string) (interval : Z)
         (ticks : list (Linux.os * Linux.call)) (w : world) (d : direction),
  sample_of d (snd (Linux.run fmt_human interval ticks w))
  = Linux.last_sample d ticks (sample_of d w)
  /\ forall o i,
     fst (Linux.netspeed fmt_human interval d o i
            (snd (Linux.run fmt_human interval ticks w)))
     = match Linux.sample_counter o d i with
       | None => Returned None
       | Some cur =>
           let prev := Linux.last_sample d ticks (sample_of d w) in
           if prev =? 0 then Returned None
           else if interval =? 0 then Fault
           else Returned (Some (fmt_human (netspeed_rate cur prev interval)
                                  1024))
       end.
Proof.
  intros fmt_human interval ticks w d.
  pose proof (run_last_sample fmt_human interval d ticks w) as Hlast.
  split; [exact Hlast|].
  intros o i. rewrite linux_result, Hlast. reflexivity.
Qed.

(** C3 as stated fails: polling eth0 and wlan0 in turn, the first poll
    of wlan0 is measured against the sample of eth0, and every later
    rate is the difference of two unrelated counters, where one
    remembered sample per interface gives none, then 500 and 600 bytes
    per second. *)
Lemma sample_is_kept_per_direction_counterexample :
  fst (Linux.run fmt_human_model 1000 interleaved_polls initial_world)
  = [Returned None; Returned (Some "3.9K"%string);
     Returned (Some "16.4P"%string); Returned (Some "4.0K"%string)]
  /\ Linux.per_interface_run fmt_human_model 1000 interleaved_polls
       Linux.empty_table
     = [Returned None; Returned None;
        Returned (Some "500.0B"%string); Returned (Some "600.0B"%string)]
  /\ fst (Linux.run fmt_human_model 1000 interleaved_polls initial_world)
     <> Linux.per_interface_run fmt_human_model 1000 interleaved_polls
          Linux.empty_table.
Proof.
  split; [vm_compute; reflexivity|].
  split; [vm_compute; reflexivity|].
  vm_compute. discriminate.
Qed.

(** C4 at its failing input.  On the BSD variant a call for an
    interface that the list of getifaddrs does not contain has already
    executed [rxbytes = 0] when it returns NULL: the remembered sample
    5000 is lost, and the next call, whose read succeeds with 7000,
    returns NULL instead of a rate against 5000.  This holds for every
    list without a counted node; a failure of getifaddrs itself, and
    every failure on Linux, leave the sample as it was. *)
Theorem bsd_missing_interface_clears_sample :
  (let w := mkWorld 5000 0 [] in
   let w1 := snd (BSD.netspeed_rx fmt_human_model 1000 (em0_at 9000 0)
                    "wlan0" w) in
   BSD.sample_counter (em0_at 9000 0) Rx "wlan0" = None
   /\ fst (BSD.netspeed_rx fmt_human_model 1000 (em0_at 9000 0) "wlan0" w)
      = Returned None
   /\ rxbytes w1 = 0
   /\ BSD.sample_counter (em0_wlan0_at 9000 7000) Rx "wlan0" = Some 7000
   /\ fst (BSD.netspeed_rx fmt_human_model 1000 (em0_wlan0_at 9000 7000)
             "wlan0" w1)
      = Returned None)
  /\ (forall fmt_human interval d ifal i w,
        existsb (BSD.counted i) ifal = false ->
        sample_of d (snd (BSD.netspeed fmt_human interval d
                            (BSD.mkOs (Some ifal)) i w)) = 0)
  /\ (forall fmt_human interval d i w,
        sample_of d (snd (BSD.netspeed fmt_human interval d
                            (BSD.mkOs None) i w)) = sample_of d w)
  /\ (forall fmt_human interval d o i w,
        Linux.sample_counter o d i = None ->
        sample_of d (snd (Linux.netspeed fmt_human interval d o i w))
        = sample_of d w).
Proof.
  split; [|split; [|split]].
  - cbv zeta.
    split; [vm_compute; reflexivity|].
    split; [vm_compute; reflexivity|].
    split; [vm_compute; reflexivity|].
    split; [vm_compute; reflexivity|].
    vm_compute; reflexivity.
  - intros fmt_human interval d ifal i w Hnone.
    rewrite bsd_sample. cbn [BSD.getifaddrs].
    assert (Hnil : filter (BSD.counted i) ifal = []).
    { induction ifal as [|a rest IH]; [reflexivity|].
      simpl in *. destruct (BSD.counted i a); [discriminate|].
      now apply IH. }
    now rewrite Hnil.
  - intros fmt_human interval d i w. now rewrite bsd_sample.
  - intros fmt_human interval d o i w Hnone.
    now rewrite linux_sample, Hnone.
Qed.




(** C8.  When run_command finds no active interface, both automatic
    functions return NULL having done nothing but spawn the command:
    no counter read is attempted and both statics keep their values. *)
Theorem auto_without_interface :
  forall (fmt_human : Z -> Z -> string) (interval : Z)
         (o : Linux.os) (w : world),
  Linux.run_command o Linux.active_interface_cmd = None ->
  fst (Linux.netspeed_get_active_interface o w) = None
  /\ Linux.netspeed_rx_auto fmt_human interval o w
     = (Returned None, emit (EvRunCommand Linux.active_interface_cmd) w)
  /\ Linux.netspeed_tx_auto fmt_human interval o w
     = (Returned None, emit (EvRunCommand Linux.active_interface_cmd) w)
  /\ (forall w',
        w' = snd (Linux.netspeed_rx_auto fmt_human interval o w)
        \/ w' = snd (Linux.netspeed_tx_auto fmt_human interval o w) ->
        rxbytes w' = rxbytes w /\ txbytes w' = txbytes w
        /\ reads w' = reads w).
Proof.
  intros fmt_human interval o w Hnone.
  assert (Hrx : Linux.netspeed_rx_auto fmt_human interval o w
    = (Returned None, emit (EvRunCommand Linux.active_interface_cmd) w)).
  { unfold Linux.netspeed_rx_auto, Linux.netspeed_get_active_interface.
    now rewrite Hnone. }
  assert (Htx : Linux.netspeed_tx_auto fmt_human interval o w
    = (Returned None, emit (EvRunCommand Linux.active_interface_cmd) w)).
  { unfold Linux.netspeed_tx_auto, Linux.netspeed_get_active_interface.
    now rewrite Hnone. }
  split; [exact Hnone|]. split; [exact Hrx|]. split; [exact Htx|].
  intros w' [-> | ->]; rewrite ?Hrx, ?Htx; repeat split.
Qed.

(** A machine with a readable eth0 on which the command prints
    nothing. *)
Lemma auto_without_interface_witness :
  Linux.run_command (eth0_at 1550000) Linux.active_interface_cmd = None
  /\ Linux.netspeed_rx_auto fmt_human_model 1000 (eth0_at 1550000)
       (mkWorld 500000 0 [])
     = (Returned None,
        mkWorld 500000 0 [EvRunCommand Linux.active_interface_cmd]).
Proof.
  split; [reflexivity|].
  destruct (auto_without_interface fmt_human_model 1000 (eth0_at 1550000)
              (mkWorld 500000 0 []) eq_refl) as (_ & Hrx & _).
  exact Hrx.
Defined.

(** C10.  A successful read of the value 0 stores the sentinel: the
    state of that direction is NoSampleYet afterwards, and the next
    call of that direction returns NULL whatever it reads. *)
Theorem zero_counter_is_the_sentinel :
  forall (fmt_human : Z -> Z -> string) (interval : Z)
         (d : direction) (o : Linux.os) (i : string) (w : world),
  Linux.sample_counter o d i = Some 0 ->
  state_of (sample_of d (snd (Linux.netspeed fmt_human interval d o i w)))
  = NoSampleYet
  /\ forall o' i',
     fst (Linux.netspeed fmt_human interval d o' i'
            (snd (Linux.netspeed fmt_human interval d o i w)))
     = Returned None.
Proof.
  intros fmt_human interval d o i w Hread.
  assert (Hzero : sample_of d (snd (Linux.netspeed fmt_human interval d o i w))
                  = 0) by now rewrite linux_sample, Hread.
  split.
  - now rewrite Hzero.
  - intros o' i'. rewrite linux_result, Hzero.
    now destruct (Linux.sample_counter o' d i').
Qed.

(** Two successful reads, 0 then 1550000, with 500000 remembered
    before them: the second yields no rate. *)
Lemma zero_counter_is_the_sentinel_witness :
  Linux.sample_counter (eth0_at 0) Rx "eth0" = Some 0
  /\ Linux.sample_counter (eth0_at 1550000) Rx "eth0" = Some 1550000
  /\ fst (Linux.netspeed_rx fmt_human_model 1000 (eth0_at 1550000) "eth0"
            (snd (Linux.netspeed_rx fmt_human_model 1000 (eth0_at 0) "eth0"
                    (mkWorld 500000 0 []))))
     = Returned None.
Proof.
  split; [vm_compute; reflexivity|]. split; [vm_compute; reflexivity|].
  assert (Hread : Linux.sample_counter (eth0_at 0) Rx "eth0" = Some 0)
    by (vm_compute; reflexivity).
  destruct (zero_counter_is_the_sentinel fmt_human_model 1000 Rx (eth0_at 0)
              "eth0"%string (mkWorld 500000 0 []) Hread) as [_ Hnext].
  exact (Hnext (eth0_at 1550000) "eth0"%string).
Defined.







(** * Further properties of the file *)

(** ** Helper lemmas *)

Lemma string_length_append (a b : string) :
  String.length (a ++ b) = (String.length a + String.length b)%nat.
Proof.
  induction a as [|ch a IH]; simpl; [reflexivity | now rewrite IH].
Qed.

Lemma counter_path_length (d : direction) (i : string) :
  String.length (Linux.counter_path d i) = (35 + String.length i)%nat.
Proof.
  destruct d; unfold Linux.counter_path, Linux.rx_path, Linux.tx_path;
    rewrite !string_length_append; simpl String.length; lia.
Qed.

(** The path fails to fit exactly from 4061 characters on. *)
Lemma path_fits (d : direction) (i : string) :
  (esnprintf PATH_MAX (Linux.counter_path d i) <? 0)
  = (4061 <=? String.length i)%nat.
Proof.
  unfold esnprintf, PATH_MAX. rewrite counter_path_length.
  destruct (Nat.leb_spec 4061 (String.length i)) as [Hlong|Hshort];
    destruct (Z.leb_spec 4096 (Z.of_nat (35 + String.length i)))
      as [Hfull|Hroom].
  - reflexivity.
  - lia.
  - lia.
  - apply Z.ltb_ge. lia.
Qed.

(** The wrapped running sum of the BSD loops is the integer sum taken
    modulo [2^64]. *)
Lemma sum_bytes_wrap (d : direction) (l : list BSD.ifaddrs) :
  forall acc : Z,
  BSD.sum_bytes d l (wrap acc)
  = wrap (acc + fold_right Z.add 0 (map (BSD.bytes_of d) l)).
Proof.
  unfold BSD.sum_bytes.
  induction l as [|a rest IH]; intros acc; simpl.
  - now rewrite Z.add_0_r.
  - assert (Hstep : uintmax_add (wrap acc) (BSD.bytes_of d a)
                    = wrap (acc + BSD.bytes_of d a)).
    { unfold uintmax_add, wrap. apply Z.add_mod_idemp_l.
      pose proof UINTMAX_MOD_pos. lia. }
    rewrite Hstep, IH. f_equal. lia.
Qed.

Lemma bsd_sample_total (d : direction) (i : string)
    (ifal : list BSD.ifaddrs) :
  BSD.sum_bytes d (filter (BSD.counted i) ifal) 0
  = (bsd_total_bytes d i ifal) mod 2 ^ 64.
Proof.
  change 0 with (wrap 0) at 1. rewrite sum_bytes_wrap. reflexivity.
Qed.

Lemma filter_permutation {A : Type} (f : A -> bool) (l l' : list A) :
  Permutation l l' -> Permutation (filter f l) (filter f l').
Proof.
  induction 1 as [|x l l' _ IH|x y l|l l' l'' _ IH1 _ IH2]; simpl.
  - constructor.
  - destruct (f x); [now constructor | exact IH].
  - destruct (f x), (f y); try apply Permutation_refl. constructor.
  - now transitivity (filter f l').
Qed.

Lemma sum_permutation (l l' : list Z) :
  Permutation l l' -> fold_right Z.add 0 l = fold_right Z.add 0 l'.
Proof.
  induction 1 as [|x l l' _ IH|x y l|l l' l'' _ IH1 _ IH2]; simpl; lia.
Qed.

Lemma existsb_permutation {A : Type} (f : A -> bool) (l l' : list A) :
  Permutation l l' -> existsb f l = existsb f l'.
Proof.
  induction 1 as [|x l l' _ IH|x y l|l l' l'' _ IH1 _ IH2]; simpl.
  - reflexivity.
  - now rewrite IH.
  - now destruct (f x), (f y).
  - now rewrite IH1.
Qed.

Section BSDOther.

Variable fmt_human : Z -> Z -> string.
Variable interval : Z.

(** A BSD call never writes the static of the other function. *)
Lemma bsd_other (d d' : direction) (o : BSD.os) (i : string) (w : world) :
  d <> d' ->
  sample_of d' (snd (BSD.netspeed fmt_human interval d o i w))
  = sample_of d' w.
Proof.
  intros Hd.
  destruct d, d'; try congruence;
  unfold BSD.netspeed, BSD.netspeed_rx, BSD.netspeed_tx; cbn [sample_of];
  (destruct (BSD.getifaddrs o) as [ifal|]; [|reflexivity]);
  rewrite ?rx_walk_sum, ?tx_walk_sum; simpl;
  destruct (existsb (BSD.counted i) ifal); simpl; try reflexivity;
  destruct (_ =? 0); try reflexivity;
  destruct (interval =? 0); reflexivity.
Qed.

End BSDOther.

Section Frames.

Variable fmt_human : Z -> Z -> string.
Variable interval : Z.

(** Either static after a Linux call. *)
Lemma linux_sample_any (d d' : direction) (o : Linux.os) (i : string)
    (w : world) :
  sample_of d' (snd (Linux.netspeed fmt_human interval d o i w))
  = if Linux.direction_eqb d d'
    then match Linux.sample_counter o d i with
         | None => sample_of d' w
         | Some cur => cur
         end
    else sample_of d' w.
Proof.
  destruct d, d'; cbn [Linux.direction_eqb];
    first [ apply linux_sample | apply linux_other; discriminate ].
Qed.

(** Either static after a BSD call. *)
Lemma bsd_sample_any (d d' : direction) (o : BSD.os) (i : string)
    (w : world) :
  sample_of d' (snd (BSD.netspeed fmt_human interval d o i w))
  = if Linux.direction_eqb d d'
    then match BSD.getifaddrs o with
         | None => sample_of d' w
         | Some ifal => BSD.sum_bytes d (filter (BSD.counted i) ifal) 0
         end
    else sample_of d' w.
Proof.
  destruct d, d'; cbn [Linux.direction_eqb];
    first [ apply bsd_sample | apply bsd_other; discriminate ].
Qed.

Lemma same_statics_samples (w w' : world) :
  same_statics w w' <-> forall d, sample_of d w = sample_of d w'.
Proof.
  split.
  - intros [Hr Ht] []; assumption.
  - intros H. split; [exact (H Rx) | exact (H Tx)].
Qed.

(** The trace has no influence on what a call returns and stores. *)
Lemma linux_frame (d : direction) (o : Linux.os) (i : string)
    (w w' : world) :
  same_statics w w' ->
  fst (Linux.netspeed fmt_human interval d o i w)
  = fst (Linux.netspeed fmt_human interval d o i w')
  /\ same_statics (snd (Linux.netspeed fmt_human interval d o i w))
                  (snd (Linux.netspeed fmt_human interval d o i w')).
Proof.
  intros Hsame. pose proof (proj1 (same_statics_samples w w') Hsame) as Hs.
  split.
  - now rewrite !linux_result, Hs.
  - apply same_statics_samples. intros d'.
    now rewrite !linux_sample_any, Hs.
Qed.

Lemma bsd_frame (d : direction) (o : BSD.os) (i : string) (w w' : world) :
  same_statics w w' ->
  fst (BSD.netspeed fmt_human interval d o i w)
  = fst (BSD.netspeed fmt_human interval d o i w')
  /\ same_statics (snd (BSD.netspeed fmt_human interval d o i w))
                  (snd (BSD.netspeed fmt_human interval d o i w')).
Proof.
  intros Hsame. pose proof (proj1 (same_statics_samples w w') Hsame) as Hs.
  split.
  - now rewrite !bsd_result, Hs.
  - apply same_statics_samples. intros d'.
    now rewrite !bsd_sample_any, Hs.
Qed.

Lemma run_frame (ticks : list (Linux.os * Linux.call)) :
  forall w w' : world,
  same_statics w w' ->
  fst (Linux.run fmt_human interval ticks w)
  = fst (Linux.run fmt_human interval ticks w')
  /\ same_statics (snd (Linux.run fmt_human interval ticks w))
                  (snd (Linux.run fmt_human interval ticks w')).
Proof.
  induction ticks as [|[o c] rest IH]; intros w w' Hsame.
  - split; [reflexivity | exact Hsame].
  - rewrite !run_cons. cbn [fst snd].
    destruct (linux_frame (Linux.call_dir c) o (Linux.call_interface c)
                w w' Hsame) as [Hres Hnext].
    destruct (IH _ _ Hnext) as [Hrest Hend].
    split; [now rewrite Hres, Hrest | exact Hend].
Qed.

Lemma run_app (a b : list (Linux.os * Linux.call)) :
  forall w : world,
  Linux.run fmt_human interval (a ++ b) w
  = (fst (Linux.run fmt_human interval a w)
       ++ fst (Linux.run fmt_human interval b
                 (snd (Linux.run fmt_human interval a w))),
     snd (Linux.run fmt_human interval b
            (snd (Linux.run fmt_human interval a w)))).
Proof.
  induction a as [|[o c] rest IH]; intros w.
  - simpl. now destruct (Linux.run fmt_human interval b w).
  - rewrite <- app_comm_cons, !run_cons, IH. reflexivity.
Qed.

End Frames.

(** ** BSD: what the loops add up *)

(** X1.  A BSD call on which getifaddrs succeeds leaves in its static
    the integer sum, modulo [2^64], of the byte counters of the nodes
    whose name is the interface and whose [ifa_data] is not NULL.
    Neither the value remembered before nor the order of the list
    matters, and nodes of other names or without statistics add
    nothing. *)
Theorem bsd_sample_is_sum_of_counted_nodes :
  forall (fmt_human : Z -> Z -> string) (interval : Z) (d : direction)
         (ifal : list BSD.ifaddrs) (i : string) (w : world),
  sample_of d (snd (BSD.netspeed fmt_human interval d
                      (BSD.mkOs (Some ifal)) i w))
  = bsd_total_bytes d i ifal mod 2 ^ 64
  /\ (forall a, BSD.counted i a = false ->
        bsd_total_bytes d i (a :: ifal) = bsd_total_bytes d i ifal)
  /\ (forall ifal', Permutation ifal ifal' ->
        fst (BSD.netspeed fmt_human interval d (BSD.mkOs (Some ifal')) i w)
        = fst (BSD.netspeed fmt_human interval d (BSD.mkOs (Some ifal)) i w)
        /\ sample_of d (snd (BSD.netspeed fmt_human interval d
                               (BSD.mkOs (Some ifal')) i w))
           = sample_of d (snd (BSD.netspeed fmt_human interval d
                                 (BSD.mkOs (Some ifal)) i w))).
Proof.
  intros fmt_human interval d ifal i w.
  assert (Hsum : forall l,
    sample_of d (snd (BSD.netspeed fmt_human interval d
                        (BSD.mkOs (Some l)) i w))
    = bsd_total_bytes d i l mod 2 ^ 64).
  { intros l. rewrite bsd_sample. cbn [BSD.getifaddrs].
    apply bsd_sample_total. }
  assert (Hperm : forall l l', Permutation l l' ->
    bsd_total_bytes d i l = bsd_total_bytes d i l').
  { intros l l' Hp. unfold bsd_total_bytes.
    apply sum_permutation, Permutation_map, filter_permutation, Hp. }
  split; [apply Hsum|]. split.
  - intros a Ha. unfold bsd_total_bytes. simpl. now rewrite Ha.
  - intros ifal' Hp. split.
    + rewrite !bsd_result. unfold BSD.sample_counter. cbn [BSD.getifaddrs].
      rewrite <- (existsb_permutation (BSD.counted i) ifal ifal' Hp).
      rewrite !bsd_sample_total, (Hperm ifal ifal' Hp). reflexivity.
    + now rewrite !Hsum, (Hperm ifal ifal' Hp).
Qed.

(** em0 listed three times, once without statistics, beside lo0. *)
Lemma bsd_sample_is_sum_of_counted_nodes_witness :
  rxbytes (snd (BSD.netspeed_rx fmt_human_model 1000 (em0_twice_at 100 250)
                  "em0" (mkWorld 5000 0 [])))
  = 350.
Proof.
  transitivity (bsd_total_bytes Rx "em0" (em0_twice 100 250) mod 2 ^ 64).
  - exact (proj1 (bsd_sample_is_sum_of_counted_nodes fmt_human_model 1000 Rx
                    (em0_twice 100 250) "em0"%string (mkWorld 5000 0 []))).
  - vm_compute. reflexivity.
Defined.

(** X9.  A BSD call whose counted bytes add up to a multiple of
    [2^64], as for an interface that is absent or has moved no byte
    yet, stores the unset sentinel: the next call of that direction
    returns NULL whatever it reads. *)
Theorem bsd_zero_total_is_the_sentinel :
  forall (fmt_human : Z -> Z -> string) (interval : Z) (d : direction)
         (ifal : list BSD.ifaddrs) (i : string) (w : world),
  bsd_total_bytes d i ifal mod 2 ^ 64 = 0 ->
  sample_of d (snd (BSD.netspeed fmt_human interval d
                      (BSD.mkOs (Some ifal)) i w)) = 0
  /\ forall o' i',
     fst (BSD.netspeed fmt_human interval d o' i'
            (snd (BSD.netspeed fmt_human interval d
                    (BSD.mkOs (Some ifal)) i w)))
     = Returned None.
Proof.
  intros fmt_human interval d ifal i w Hzero.
  assert (Hs : sample_of d (snd (BSD.netspeed fmt_human interval d
                                   (BSD.mkOs (Some ifal)) i w)) = 0).
  { rewrite bsd_sample. cbn [BSD.getifaddrs].
    now rewrite bsd_sample_total. }
  split; [exact Hs|].
  intros o' i'. rewrite bsd_result, Hs.
  now destruct (BSD.sample_counter o' d i').
Qed.

(** em0 is present with no byte received yet; the next read of 7000
    bytes yields no rate although 5000 was remembered before. *)
Lemma bsd_zero_total_is_the_sentinel_witness :
  BSD.sample_counter (em0_at 0 0) Rx "em0" = Some 0
  /\ BSD.sample_counter (em0_at 7000 0) Rx "em0" = Some 7000
  /\ fst (BSD.netspeed_rx fmt_human_model 1000 (em0_at 7000 0) "em0"
            (snd (BSD.netspeed_rx fmt_human_model 1000 (em0_at 0 0) "em0"
                    (mkWorld 5000 0 []))))
     = Returned None.
Proof.
  split; [vm_compute; reflexivity|]. split; [vm_compute; reflexivity|].
  destruct (bsd_zero_total_is_the_sentinel fmt_human_model 1000 Rx
              [BSD.mkIfaddrs "em0" (Some (BSD.mkIfData 0 0))]
              "em0"%string (mkWorld 5000 0 []) eq_refl) as [_ Hnext].
  exact (Hnext (em0_at 7000 0) "em0"%string).
Defined.

(** ** The two variants side by side *)

(** X2.  Whenever the Linux read and the BSD read have the same
    outcome, the two variants return the same result from the same
    statics; and when that outcome is a value, they leave the same
    statics behind. *)
Theorem variants_agree_on_equal_reads :
  forall (fmt_human : Z -> Z -> string) (interval : Z) (d : direction)
         (ol : Linux.os) (ob : BSD.os) (i i' : string) (w : world),
  Linux.sample_counter ol d i = BSD.sample_counter ob d i' ->
  fst (Linux.netspeed fmt_human interval d ol i w)
  = fst (BSD.netspeed fmt_human interval d ob i' w)
  /\ (Linux.sample_counter ol d i <> None ->
      same_statics (snd (Linux.netspeed fmt_human interval d ol i w))
                   (snd (BSD.netspeed fmt_human interval d ob i' w))).
Proof.
  intros fmt_human interval d ol ob i i' w Heq. split.
  - now rewrite linux_result, bsd_result, Heq.
  - intros Hok. apply same_statics_samples. intros d'.
    rewrite linux_sample_any, bsd_sample_any.
    destruct (Linux.direction_eqb d d'); [|reflexivity].
    rewrite Heq in *. unfold BSD.sample_counter in *.
    destruct (BSD.getifaddrs ob) as [ifal|]; [|contradiction].
    destruct (existsb (BSD.counted i') ifal); [reflexivity | contradiction].
Qed.

(** eth0 on Linux and em0 on BSD both at 1550000 bytes. *)
Lemma variants_agree_on_equal_reads_witness :
  Linux.sample_counter (eth0_at 1550000) Rx "eth0"
  = BSD.sample_counter (em0_at 1550000 0) Rx "em0"
  /\ fst (BSD.netspeed_rx fmt_human_model 1000 (em0_at 1550000 0) "em0"
            (mkWorld 500000 0 []))
     = fst (Linux.netspeed_rx fmt_human_model 1000 (eth0_at 1550000) "eth0"
              (mkWorld 500000 0 [])).
Proof.
  assert (Heq : Linux.sample_counter (eth0_at 1550000) Rx "eth0"
                = BSD.sample_counter (em0_at 1550000 0) Rx "em0")
    by (vm_compute; reflexivity).
  split; [exact Heq|].
  symmetry.
  exact (proj1 (variants_agree_on_equal_reads fmt_human_model 1000 Rx
                  (eth0_at 1550000) (em0_at 1550000 0)
                  "eth0"%string "em0"%string (mkWorld 500000 0 []) Heq)).
Defined.

(** X4.  The receive and the transmit function do not interfere, on
    either variant: each returns the same result whether or not the
    other ran just before, and the statics end up the same in either
    order. *)
Theorem rx_and_tx_do_not_interfere :
  forall (fmt_human : Z -> Z -> string) (interval : Z),
  (forall o1 i1 o2 i2 w,
     fst (Linux.netspeed_rx fmt_human interval o1 i1
            (snd (Linux.netspeed_tx fmt_human interval o2 i2 w)))
     = fst (Linux.netspeed_rx fmt_human interval o1 i1 w)
     /\ fst (Linux.netspeed_tx fmt_human interval o2 i2
               (snd (Linux.netspeed_rx fmt_human interval o1 i1 w)))
        = fst (Linux.netspeed_tx fmt_human interval o2 i2 w)
     /\ same_statics
          (snd (Linux.netspeed_rx fmt_human interval o1 i1
                  (snd (Linux.netspeed_tx fmt_human interval o2 i2 w))))
          (snd (Linux.netspeed_tx fmt_human interval o2 i2
                  (snd (Linux.netspeed_rx fmt_human interval o1 i1 w)))))
  /\ (forall o1 i1 o2 i2 w,
     fst (BSD.netspeed_rx fmt_human interval o1 i1
            (snd (BSD.netspeed_tx fmt_human interval o2 i2 w)))
     = fst (BSD.netspeed_rx fmt_human interval o1 i1 w)
     /\ fst (BSD.netspeed_tx fmt_human interval o2 i2
               (snd (BSD.netspeed_rx fmt_human interval o1 i1 w)))
        = fst (BSD.netspeed_tx fmt_human interval o2 i2 w)
     /\ same_statics
          (snd (BSD.netspeed_rx fmt_human interval o1 i1
                  (snd (BSD.netspeed_tx fmt_human interval o2 i2 w))))
          (snd (BSD.netspeed_tx fmt_human interval o2 i2
                  (snd (BSD.netspeed_rx fmt_human interval o1 i1 w))))).
Proof.
  intros fmt_human interval. split; intros o1 i1 o2 i2 w.
  - change (Linux.netspeed_rx fmt_human interval)
      with (Linux.netspeed fmt_human interval Rx).
    change (Linux.netspeed_tx fmt_human interval)
      with (Linux.netspeed fmt_human interval Tx).
    split; [|split].
    + rewrite !linux_result, linux_sample_any. reflexivity.
    + rewrite !linux_result, linux_sample_any. reflexivity.
    + apply same_statics_samples. intros d'.
      rewrite !linux_sample_any. destruct d'; reflexivity.
  - change (BSD.netspeed_rx fmt_human interval)
      with (BSD.netspeed fmt_human interval Rx).
    change (BSD.netspeed_tx fmt_human interval)
      with (BSD.netspeed fmt_human interval Tx).
    split; [|split].
    + rewrite !bsd_result, bsd_sample_any. reflexivity.
    + rewrite !bsd_result, bsd_sample_any. reflexivity.
    + apply same_statics_samples. intros d'.
      rewrite !bsd_sample_any. destruct d'; reflexivity.
Qed.

(** ** Linux: paths, discovery, faults and failed reads *)

Section LinuxTrace.

Variable fmt_human : Z -> Z -> string.
Variable interval : Z.

(** What a call adds to the trace. *)
Lemma linux_trace (d : direction) (o : Linux.os) (i : string) (w : world) :
  trace (snd (Linux.netspeed fmt_human interval d o i w))
  = if esnprintf PATH_MAX (Linux.counter_path d i) <? 0
    then trace w
    else EvScan (Linux.counter_path d i) :: trace w.
Proof.
  destruct d; unfold Linux.netspeed, Linux.netspeed_rx, Linux.netspeed_tx,
    Linux.counter_path, pscanf;
  destruct (esnprintf PATH_MAX _ <? 0); try reflexivity;
  destruct (Linux.fscanf_ju o _); simpl; try reflexivity;
  destruct (_ =? 0); try reflexivity;
  destruct (interval =? 0); reflexivity.
Qed.

(** A path that does not fit ends the call before anything happens. *)
Lemma linux_unformatted (d : direction) (o : Linux.os) (i : string)
    (w : world) :
  (esnprintf PATH_MAX (Linux.counter_path d i) <? 0) = true ->
  Linux.netspeed fmt_human interval d o i w = (Returned None, w).
Proof.
  intros Hfail.
  destruct d; unfold Linux.netspeed, Linux.netspeed_rx, Linux.netspeed_tx;
    cbn [Linux.counter_path] in Hfail; now rewrite Hfail.
Qed.

End LinuxTrace.

(** X5.  The path buffer bounds the interface name: a name of 4061
    characters or more makes the call return NULL with the world
    untouched, no file opened; a shorter name makes the call open
    exactly the statistics file of that interface and direction, once,
    whatever the read then gives. *)
Theorem interface_name_is_bounded_by_path_buffer :
  forall (fmt_human : Z -> Z -> string) (interval : Z) (d : direction)
         (o : Linux.os) (i : string) (w : world),
  ((4061 <= String.length i)%nat ->
   Linux.netspeed fmt_human interval d o i w = (Returned None, w))
  /\ ((String.length i < 4061)%nat ->
      trace (snd (Linux.netspeed fmt_human interval d o i w))
      = EvScan (match d with
                | Rx => "/sys/class/net/" ++ i ++ "/statistics/rx_bytes"
                | Tx => "/sys/class/net/" ++ i ++ "/statistics/tx_bytes"
                end)%string :: trace w).
Proof.
  intros fmt_human interval d o i w. split; intros Hlen.
  - apply linux_unformatted. rewrite path_fits. now apply Nat.leb_le.
  - rewrite linux_trace, path_fits.
    destruct (Nat.leb_spec 4061 (String.length i)); [lia|].
    now destruct d.
Qed.

(** A name of 4061 characters, on a machine where every file reads
    as 7. *)
Lemma interface_name_is_bounded_by_path_buffer_witness :
  (4061 <= String.length (name_of_length 4061))%nat
  /\ Linux.netspeed_rx fmt_human_model 1000
       (Linux.mkOs (fun _ => Converted 7) (fun _ => None))
       (name_of_length 4061) (mkWorld 5 0 [])
     = (Returned None, mkWorld 5 0 []).
Proof.
  assert (Hlen : (4061 <= String.length (name_of_length 4061))%nat)
    by (apply Nat.leb_le; vm_compute; reflexivity).
  split; [exact Hlen|].
  exact (proj1 (interface_name_is_bounded_by_path_buffer fmt_human_model 1000
                  Rx (Linux.mkOs (fun _ => Converted 7) (fun _ => None))
                  (name_of_length 4061) (mkWorld 5 0 [])) Hlen).
Defined.

(** X3.  When the discovery command names an interface, each automatic
    function returns what the plain function returns for that interface
    and leaves the same statics and the same number of counter reads;
    found or not, each call spawns the command exactly once, and the
    plain functions spawn nothing. *)
Theorem auto_samples_the_discovered_interface :
  forall (fmt_human : Z -> Z -> string) (interval : Z)
         (o : Linux.os) (w : world),
  (forall interface,
     Linux.run_command o Linux.active_interface_cmd = Some interface ->
     (fst (Linux.netspeed_rx_auto fmt_human interval o w)
      = fst (Linux.netspeed_rx fmt_human interval o interface w)
      /\ same_statics (snd (Linux.netspeed_rx_auto fmt_human interval o w))
           (snd (Linux.netspeed_rx fmt_human interval o interface w))
      /\ reads (snd (Linux.netspeed_rx_auto fmt_human interval o w))
         = reads (snd (Linux.netspeed_rx fmt_human interval o interface w)))
     /\ (fst (Linux.netspeed_tx_auto fmt_human interval o w)
         = fst (Linux.netspeed_tx fmt_human interval o interface w)
         /\ same_statics (snd (Linux.netspeed_tx_auto fmt_human interval o w))
              (snd (Linux.netspeed_tx fmt_human interval o interface w))
         /\ reads (snd (Linux.netspeed_tx_auto fmt_human interval o w))
            = reads (snd (Linux.netspeed_tx fmt_human interval o interface
                            w))))
  /\ spawns (snd (Linux.netspeed_rx_auto fmt_human interval o w))
     = S (spawns w)
  /\ spawns (snd (Linux.netspeed_tx_auto fmt_human interval o w))
     = S (spawns w)
  /\ (forall d i,
        spawns (snd (Linux.netspeed fmt_human interval d o i w)) = spawns w).
Proof.
  intros fmt_human interval o w.
  set (w0 := emit (EvRunCommand Linux.active_interface_cmd) w).
  assert (Hsame : same_statics w0 w) by (split; reflexivity).
  assert (Hplain : forall d i w1,
    spawns (snd (Linux.netspeed fmt_human interval d o i w1)) = spawns w1).
  { intros d i w1. unfold spawns. rewrite linux_trace.
    now destruct (esnprintf PATH_MAX _ <? 0). }
  assert (Hauto : forall d interface,
    fst (Linux.netspeed fmt_human interval d o interface w0)
    = fst (Linux.netspeed fmt_human interval d o interface w)
    /\ same_statics (snd (Linux.netspeed fmt_human interval d o interface w0))
         (snd (Linux.netspeed fmt_human interval d o interface w))
    /\ reads (snd (Linux.netspeed fmt_human interval d o interface w0))
       = reads (snd (Linux.netspeed fmt_human interval d o interface w))).
  { intros d interface.
    destruct (linux_frame fmt_human interval d o interface w0 w Hsame)
      as [Hres Hst].
    split; [exact Hres|]. split; [exact Hst|].
    now rewrite !linux_reads. }
  split; [|split; [|split]].
  - intros interface Hfound.
    unfold Linux.netspeed_rx_auto, Linux.netspeed_tx_auto,
      Linux.netspeed_get_active_interface.
    rewrite Hfound. fold w0.
    split; [exact (Hauto Rx interface) | exact (Hauto Tx interface)].
  - unfold Linux.netspeed_rx_auto, Linux.netspeed_get_active_interface.
    fold w0. destruct (Linux.run_command o _) as [interface|].
    + exact (Hplain Rx interface w0).
    + reflexivity.
  - unfold Linux.netspeed_tx_auto, Linux.netspeed_get_active_interface.
    fold w0. destruct (Linux.run_command o _) as [interface|].
    + exact (Hplain Tx interface w0).
    + reflexivity.
  - intros d i. apply Hplain.
Qed.

(** The command prints eth0, whose counter went from 500000 to
    1550000. *)
Lemma auto_samples_the_discovered_interface_witness :
  Linux.run_command (eth0_both_at 1550000 9 (Some "eth0"%string))
    Linux.active_interface_cmd = Some "eth0"%string
  /\ fst (Linux.netspeed_rx_auto fmt_human_model 1000
            (eth0_both_at 1550000 9 (Some "eth0"%string))
            (mkWorld 500000 0 []))
     = Returned (Some "1.0M"%string).
Proof.
  split; [reflexivity|].
  destruct (auto_samples_the_discovered_interface fmt_human_model 1000
              (eth0_both_at 1550000 9 (Some "eth0"%string))
              (mkWorld 500000 0 [])) as [Hfound _].
  destruct (Hfound "eth0"%string eq_refl) as [[Hres _] _].
  rewrite Hres. vm_compute. reflexivity.
Defined.

(** X6.  The division by [interval] is reached only after all three
    guards: on either variant a call faults exactly when the interval
    is 0, the read succeeds and a nonzero sample is remembered.  A
    failed read or an unset sample returns NULL whatever the interval,
    so with an interval of 0 too. *)
Theorem fault_exactly_at_the_division :
  forall (fmt_human : Z -> Z -> string) (interval : Z) (d : direction)
         (i : string) (w : world),
  (forall o,
     fst (Linux.netspeed fmt_human interval d o i w) = Fault
     <-> interval = 0 /\ sample_of d w <> 0
         /\ Linux.sample_counter o d i <> None)
  /\ (forall o,
     fst (BSD.netspeed fmt_human interval d o i w) = Fault
     <-> interval = 0 /\ sample_of d w <> 0
         /\ BSD.sample_counter o d i <> None)
  /\ (forall o,
     Linux.sample_counter o d i = None \/ sample_of d w = 0 ->
     fst (Linux.netspeed fmt_human interval d o i w) = Returned None)
  /\ (forall o,
     BSD.sample_counter o d i = None \/ sample_of d w = 0 ->
     fst (BSD.netspeed fmt_human interval d o i w) = Returned None)
  /\ (forall o,
     fst (Linux.netspeed fmt_human 0 d o i w) = Returned None
     <-> Linux.sample_counter o d i = None \/ sample_of d w = 0)
  /\ (forall o,
     fst (BSD.netspeed fmt_human 0 d o i w) = Returned None
     <-> BSD.sample_counter o d i = None \/ sample_of d w = 0).
Proof.
  intros fmt_human interval d i w.
  split; [|split; [|split; [|split; [|split]]]]; intros o.
  - rewrite linux_result.
    destruct (Linux.sample_counter o d i) as [cur|];
      destruct (Z.eqb_spec (sample_of d w) 0);
      destruct (Z.eqb_spec interval 0); split;
      try discriminate; try tauto; intros _; repeat split;
      try assumption; discriminate.
  - rewrite bsd_result.
    destruct (BSD.sample_counter o d i) as [cur|];
      destruct (Z.eqb_spec (sample_of d w) 0);
      destruct (Z.eqb_spec interval 0); split;
      try discriminate; try tauto; intros _; repeat split;
      try assumption; discriminate.
  - intros [Hread | Hold]; rewrite linux_result.
    + now rewrite Hread.
    + rewrite Hold. now destruct (Linux.sample_counter o d i).
  - intros [Hread | Hold]; rewrite bsd_result.
    + now rewrite Hread.
    + rewrite Hold. now destruct (BSD.sample_counter o d i).
  - rewrite linux_result.
    destruct (Linux.sample_counter o d i) as [cur|];
      destruct (Z.eqb_spec (sample_of d w) 0); simpl; split; intros H;
      auto; try discriminate; destruct H; congruence.
  - rewrite bsd_result.
    destruct (BSD.sample_counter o d i) as [cur|];
      destruct (Z.eqb_spec (sample_of d w) 0); simpl; split; intros H;
      auto; try discriminate; destruct H; congruence.
Qed.

(** X7.  On Linux a failed read leaves no mark on what follows: the
    calls after it return what they would have returned had the failed
    call not been made, and the statics end up the same.  The first
    rate after the gap is therefore taken against the sample from
    before it, over the unchanged interval. *)
Theorem failed_read_leaves_no_mark :
  forall (fmt_human : Z -> Z -> string) (interval : Z)
         (before after : list (Linux.os * Linux.call))
         (o : Linux.os) (d : direction) (i : string) (w : world),
  Linux.sample_counter o d i = None ->
  fst (Linux.run fmt_human interval
         (before ++ (o, Linux.mkCall d i) :: after) w)
  = fst (Linux.run fmt_human interval before w)
    ++ Returned None
    :: fst (Linux.run fmt_human interval after
              (snd (Linux.run fmt_human interval before w)))
  /\ fst (Linux.run fmt_human interval (before ++ after) w)
     = fst (Linux.run fmt_human interval before w)
       ++ fst (Linux.run fmt_human interval after
                 (snd (Linux.run fmt_human interval before w)))
  /\ same_statics
       (snd (Linux.run fmt_human interval
               (before ++ (o, Linux.mkCall d i) :: after) w))
       (snd (Linux.run fmt_human interval (before ++ after) w)).
Proof.
  intros fmt_human interval before after o d i w Hfail.
  set (w1 := snd (Linux.run fmt_human interval before w)).
  assert (Hsame : same_statics
            (snd (Linux.netspeed fmt_human interval d o i w1)) w1).
  { apply same_statics_samples. intros d'.
    rewrite linux_sample_any, Hfail.
    now destruct (Linux.direction_eqb d d'). }
  destruct (run_frame fmt_human interval after _ _ Hsame) as [Hres Hend].
  rewrite !run_app, run_cons. cbn [fst snd Linux.call_dir Linux.call_interface].
  fold w1. rewrite linux_result, Hfail, Hres.
  split; [reflexivity|]. split; [reflexivity | exact Hend].
Qed.

(** 500000 bytes, then a tick on which the file cannot be opened, then
    1550000: the rate after the gap is the one of the two samples. *)
Lemma failed_read_leaves_no_mark_witness :
  Linux.sample_counter (Linux.system [] None) Rx "eth0" = None
  /\ fst (Linux.run fmt_human_model 1000
            ([poll_rx (eth0_at 500000) "eth0"]
             ++ (Linux.system [] None, Linux.mkCall Rx "eth0")
             :: [poll_rx (eth0_at 1550000) "eth0"])
            initial_world)
     = [Returned None; Returned None; Returned (Some "1.0M"%string)].
Proof.
  assert (Hfail : Linux.sample_counter (Linux.system [] None) Rx "eth0" = None)
    by (vm_compute; reflexivity).
  split; [exact Hfail|].
  destruct (failed_read_leaves_no_mark fmt_human_model 1000
              [poll_rx (eth0_at 500000) "eth0"]
              [poll_rx (eth0_at 1550000) "eth0"]
              (Linux.system [] None) Rx "eth0"%string initial_world Hfail)
    as [Hres _].
  rewrite Hres. vm_compute. reflexivity.
Defined.

(** X8.  With a positive interval, the number a successful call hands
    to the formatter lies between 0 and [(2^64 - 1) / interval].  It is
    0 when the counter did not move, and also when it grew by so little
    that the difference times 1000 is below the interval: the division
    rounds down. *)
Theorem rate_is_bounded_and_rounds_down :
  forall (fmt_human : Z -> Z -> string) (interval : Z) (d : direction)
         (o : Linux.os) (i : string) (w : world) (cur : Z),
  0 < interval ->
  sample_of d w <> 0 ->
  Linux.sample_counter o d i = Some cur ->
  exists r : Z,
    fst (Linux.netspeed fmt_human interval d o i w)
    = Returned (Some (fmt_human r 1024))
    /\ 0 <= r <= (2 ^ 64 - 1) / interval
    /\ (cur = sample_of d w -> r = 0)
    /\ (sample_of d w <= cur -> (cur - sample_of d w) * 1000 < interval ->
        r = 0).
Proof.
  intros fmt_human interval d o i w cur Hpos Hold Hread.
  exists (netspeed_rate cur (sample_of d w) interval).
  assert (Hm : 0 < 2 ^ 64) by reflexivity.
  split; [|split; [|split]].
  - rewrite linux_result, Hread.
    destruct (Z.eqb_spec (sample_of d w) 0); [contradiction|].
    destruct (Z.eqb_spec interval 0); [lia | reflexivity].
  - rewrite netspeed_rate_unfold.
    pose proof (Z.mod_pos_bound (((cur - sample_of d w) mod 2 ^ 64) * 1000)
                  (2 ^ 64) Hm) as Hb.
    split.
    + apply Z.div_pos; lia.
    + apply Z.div_le_mono; lia.
  - intros ->. rewrite netspeed_rate_unfold, Z.sub_diag.
    reflexivity.
  - intros Hle Hsmall. rewrite netspeed_rate_unfold.
    apply Z.div_small.
    pose proof (Z.mod_pos_bound (((cur - sample_of d w) mod 2 ^ 64) * 1000)
                  (2 ^ 64) Hm) as Hb.
    assert (Hd : (cur - sample_of d w) mod 2 ^ 64 <= cur - sample_of d w)
      by (apply Z.mod_le; lia).
    assert (Hp : (((cur - sample_of d w) mod 2 ^ 64) * 1000) mod 2 ^ 64
                 <= ((cur - sample_of d w) mod 2 ^ 64) * 1000).
    { apply Z.mod_le; [|lia].
      pose proof (Z.mod_pos_bound (cur - sample_of d w) (2 ^ 64) Hm). lia. }
    lia.
Qed.

(** Polled every five seconds, four more bytes show as a rate of 0. *)
Lemma rate_is_bounded_and_rounds_down_witness :
  0 < 5000
  /\ fst (Linux.netspeed fmt_human_model 5000 Rx (eth0_at 1004) "eth0"
            (mkWorld 1000 0 []))
     = Returned (Some "0.0B"%string).
Proof.
  split; [lia|].
  destruct (rate_is_bounded_and_rounds_down fmt_human_model 5000 Rx
              (eth0_at 1004) "eth0"%string (mkWorld 1000 0 []) 1004)
    as (r & Hres & _ & _ & Hsmall).
  - lia.
  - simpl. lia.
  - vm_compute. reflexivity.
  - rewrite Hres, Hsmall.
    + vm_compute. reflexivity.
    + simpl. lia.
    + simpl. lia.
Defined.

(** X10.  The BSD variant prints a warning exactly when its read
    fails, once and after the call of getifaddrs: one text when
    getifaddrs fails, another when no node is counted.  The loop prints
    nothing, and the NULL of an unset sample is silent. *)
Theorem bsd_warns_exactly_on_failed_reads :
  forall (fmt_human : Z -> Z -> string) (interval : Z) (d : direction)
         (o : BSD.os) (i : string) (w : world),
  trace (snd (BSD.netspeed fmt_human interval d o i w))
  = match BSD.getifaddrs o with
    | None => EvWarn "getifaddrs failed" :: EvGetifaddrs :: trace w
    | Some ifal =>
        if existsb (BSD.counted i) ifal
        then EvGetifaddrs :: trace w
        else EvWarn "reading 'if_data' failed" :: EvGetifaddrs :: trace w
    end.
Proof.
  intros fmt_human interval d o i w.
  destruct d; unfold BSD.netspeed, BSD.netspeed_rx, BSD.netspeed_tx;
  (destruct (BSD.getifaddrs o) as [ifal|]; [|reflexivity]);
  rewrite ?rx_walk_sum, ?tx_walk_sum; simpl;
  destruct (existsb (BSD.counted i) ifal); simpl; try reflexivity;
  destruct (_ =? 0); try reflexivity;
  destruct (interval =? 0); reflexivity.
Qed.

(** ** The remembered sample over a run, on both variants *)

Lemma direction_eqb_eq (a b : direction) :
  Linux.direction_eqb a b = true -> a = b.
Proof. destruct a, b; simpl; congruence. Qed.

(** On Linux the static holds the last value read, or what it held
    before the run when no read succeeded. *)
Lemma last_sample_last_read (d : direction)
    (ticks : list (Linux.os * Linux.call)) :
  forall init : Z,
  Linux.last_sample d ticks init
  = match last_read Linux.sample_counter d ticks with
    | Some v => v
    | None => init
    end.
Proof.
  induction ticks as [|[o c] rest IH]; intros init; simpl.
  - reflexivity.
  - rewrite IH. destruct (last_read Linux.sample_counter d rest);
      [reflexivity|].
    destruct (Linux.call_dir c), d; simpl; try reflexivity;
      now destruct (Linux.sample_counter o _ _).
Qed.

Section BSDRun.

Variable fmt_human : Z -> Z -> string.
Variable interval : Z.

Lemma bsd_run_cons (o : BSD.os) (c : Linux.call)
    (rest : list (BSD.os * Linux.call)) (w : world) :
  bsd_run fmt_human interval ((o, c) :: rest) w
  = (fst (BSD.netspeed fmt_human interval (Linux.call_dir c) o
            (Linux.call_interface c) w)
       :: fst (bsd_run fmt_human interval rest
                 (snd (BSD.netspeed fmt_human interval (Linux.call_dir c) o
                         (Linux.call_interface c) w))),
     snd (bsd_run fmt_human interval rest
            (snd (BSD.netspeed fmt_human interval (Linux.call_dir c) o
                    (Linux.call_interface c) w)))).
Proof.
  simpl. destruct (BSD.netspeed _ _ _ _ _ _) as [r w1]. simpl.
  now destruct (bsd_run _ _ rest w1).
Qed.

(** The static after a BSD call whose getifaddrs fails, and after one
    whose read succeeds. *)
Lemma bsd_sample_of_read (d : direction) (o : BSD.os) (i : string)
    (w : world) :
  (BSD.getifaddrs o = None ->
   sample_of d (snd (BSD.netspeed fmt_human interval d o i w))
   = sample_of d w)
  /\ (forall cur, BSD.sample_counter o d i = Some cur ->
      sample_of d (snd (BSD.netspeed fmt_human interval d o i w)) = cur).
Proof.
  rewrite bsd_sample. unfold BSD.sample_counter. split.
  - now intros ->.
  - intros cur. destruct (BSD.getifaddrs o) as [ifal|]; [|discriminate].
    destruct (existsb (BSD.counted i) ifal); [|discriminate].
    now intros [= <-].
Qed.

(** Over a run in which no call finds its interface missing from the
    list, the static holds the last value read. *)
Lemma bsd_run_last_read (d : direction)
    (ticks : list (BSD.os * Linux.call)) :
  Forall (fun t => Linux.call_dir (snd t) = d ->
                   BSD.getifaddrs (fst t) = None
                   \/ BSD.sample_counter (fst t) d
                        (Linux.call_interface (snd t)) <> None) ticks ->
  forall w : world,
  sample_of d (snd (bsd_run fmt_human interval ticks w))
  = match last_read BSD.sample_counter d ticks with
    | Some v => v
    | None => sample_of d w
    end.
Proof.
  induction 1 as [|[o c] rest Hc _ IH]; intros w.
  - reflexivity.
  - rewrite bsd_run_cons. cbn [snd last_read]. rewrite IH.
    destruct (last_read BSD.sample_counter d rest); [reflexivity|].
    simpl in Hc.
    destruct (Linux.direction_eqb (Linux.call_dir c) d) eqn:He.
    + apply direction_eqb_eq in He. specialize (Hc He). rewrite He.
      destruct (bsd_sample_of_read d o (Linux.call_interface c) w)
        as [Hfail Hok].
      destruct (BSD.sample_counter o d (Linux.call_interface c))
        as [cur|] eqn:Hread.
      * now apply Hok.
      * destruct Hc as [Hnone | Hsome]; [now apply Hfail | contradiction].
    + now rewrite bsd_sample_any, He.
Qed.

(** Over a run in which every call of the direction either has
    getifaddrs fail or reads a nonzero value, a nonzero sample stays
    nonzero. *)
Lemma bsd_run_keeps_sample (d : direction)
    (ticks : list (BSD.os * Linux.call)) :
  Forall (fun t => Linux.call_dir (snd t) = d ->
                   BSD.getifaddrs (fst t) = None
                   \/ exists cur,
                        BSD.sample_counter (fst t) d
                          (Linux.call_interface (snd t)) = Some cur
                        /\ cur <> 0) ticks ->
  forall w : world,
  sample_of d w <> 0 ->
  sample_of d (snd (bsd_run fmt_human interval ticks w)) <> 0.
Proof.
  induction 1 as [|[o c] rest Hc _ IH]; intros w Hw.
  - exact Hw.
  - rewrite bsd_run_cons. cbn [snd]. apply IH. simpl in Hc.
    destruct (Linux.direction_eqb (Linux.call_dir c) d) eqn:He.
    + apply direction_eqb_eq in He. specialize (Hc He). rewrite He.
      destruct (bsd_sample_of_read d o (Linux.call_interface c) w)
        as [Hfail Hok].
      destruct Hc as [Hnone | [cur [Hread Hnz]]].
      * now rewrite Hfail.
      * now rewrite (Hok cur Hread).
    + now rewrite bsd_sample_any, He.
Qed.

End BSDRun.

(** * The sampler state and the NULL result over the life of the process *)

(** C5, as the code has it, on both variants.  The state of a
    direction is read off its static.  A successful read makes it
    HaveSample exactly when the value read is nonzero, so the first
    successful read of a nonzero counter moves NoSampleYet to
    HaveSample.  Every failed read on Linux, and a failure of
    getifaddrs on BSD, leave the state as it was.  The state stays
    HaveSample over any Linux run in which no successful read of that
    direction stores 0, and over any BSD run in which every call of that
    direction either has getifaddrs fail or reads a nonzero value. *)
Theorem sampler_state_follows_last_read :
  forall (fmt_human : Z -> Z -> string) (interval : Z),
  (forall d o i w,
     state_of (sample_of d (snd (Linux.netspeed fmt_human interval d o i w)))
     = match Linux.sample_counter o d i with
       | None => state_of (sample_of d w)
       | Some cur => if cur =? 0 then NoSampleYet else HaveSample
       end)
  /\ (forall d o i w cur,
        state_of (sample_of d w) = NoSampleYet ->
        Linux.sample_counter o d i = Some cur -> cur <> 0 ->
        state_of (sample_of d
                    (snd (Linux.netspeed fmt_human interval d o i w)))
        = HaveSample)
  /\ (forall d ticks w,
        Forall (fun t => Linux.call_dir (snd t) = d ->
                         Linux.sample_counter (fst t) d
                           (Linux.call_interface (snd t)) <> Some 0) ticks ->
        state_of (sample_of d w) = HaveSample ->
        state_of (sample_of d (snd (Linux.run fmt_human interval ticks w)))
        = HaveSample)
  /\ (forall d o i w,
        BSD.getifaddrs o = None ->
        state_of (sample_of d (snd (BSD.netspeed fmt_human interval d o i w)))
        = state_of (sample_of d w))
  /\ (forall d o i w cur,
        BSD.sample_counter o d i = Some cur ->
        state_of (sample_of d (snd (BSD.netspeed fmt_human interval d o i w)))
        = if cur =? 0 then NoSampleYet else HaveSample)
  /\ (forall d ticks w,
        Forall (fun t => Linux.call_dir (snd t) = d ->
                         BSD.getifaddrs (fst t) = None
                         \/ exists cur,
                              BSD.sample_counter (fst t) d
                                (Linux.call_interface (snd t)) = Some cur
                              /\ cur <> 0) ticks ->
        state_of (sample_of d w) = HaveSample ->
        state_of (sample_of d (snd (bsd_run fmt_human interval ticks w)))
        = HaveSample).
Proof.
  intros fmt_human interval. split; [|split; [|split; [|split; [|split]]]].
  - intros d o i w. rewrite linux_sample.
    now destruct (Linux.sample_counter o d i).
  - intros d o i w cur _ Hread Hnz. rewrite linux_sample, Hread.
    now apply state_of_nonzero.
  - intros d ticks w Hall Hhave. rewrite run_last_sample.
    apply state_of_nonzero. apply last_sample_nonzero; [exact Hall|].
    now apply state_of_nonzero.
  - intros d o i w Hfail.
    now rewrite (proj1 (bsd_sample_of_read fmt_human interval d o i w) Hfail).
  - intros d o i w cur Hread.
    now rewrite (proj2 (bsd_sample_of_read fmt_human interval d o i w)
                   cur Hread).
  - intros d ticks w Hall Hhave. apply state_of_nonzero.
    apply bsd_run_keeps_sample; [exact Hall|].
    now apply state_of_nonzero.
Qed.

(** A sample of 500000 survives a failed read and a read of 1550000
    on Linux, and a failure of getifaddrs and a read of 1550000 on
    BSD. *)
Lemma sampler_state_follows_last_read_witness :
  state_of (sample_of Rx (mkWorld 500000 0 [])) = HaveSample
  /\ state_of (sample_of Rx
       (snd (Linux.run fmt_human_model 1000
               [poll_rx (eth0_at 1550000) "wlan0";
                poll_rx (eth0_at 1550000) "eth0"]
               (mkWorld 500000 0 []))))
     = HaveSample
  /\ state_of (sample_of Rx
       (snd (bsd_run fmt_human_model 1000
               [poll_bsd (BSD.mkOs None) "em0";
                poll_bsd (em0_at 1550000 0) "em0"]
               (mkWorld 500000 0 []))))
     = HaveSample.
Proof.
  split; [reflexivity|].
  destruct (sampler_state_follows_last_read fmt_human_model 1000)
    as (_ & _ & Hrun & _ & _ & Hbsd).
  split.
  - apply Hrun; [|reflexivity].
    constructor; [intros _; vm_compute; discriminate|].
    constructor; [intros _; vm_compute; discriminate|].
    constructor.
  - apply Hbsd; [|reflexivity].
    constructor; [intros _; left; reflexivity|].
    constructor.
    + intros _. right. exists 1550000.
      split; [vm_compute; reflexivity | discriminate].
    + constructor.
Defined.

(** C5 as stated fails: a successful read of the value 0 takes a
    sampler that holds 500 back to NoSampleYet, and a first successful
    read of 0 does not leave NoSampleYet. *)
Lemma sampler_state_counterexample :
  let w := mkWorld 500 0 [] in
  state_of (rxbytes w) = HaveSample
  /\ Linux.sample_counter (eth0_at 0) Rx "eth0" = Some 0
  /\ state_of (rxbytes (snd (Linux.netspeed_rx fmt_human_model 1000
                               (eth0_at 0) "eth0" w)))
     = NoSampleYet
  /\ state_of (rxbytes (snd (Linux.netspeed_rx fmt_human_model 1000
                               (eth0_at 0) "eth0" initial_world)))
     = NoSampleYet.
Proof.
  cbv zeta.
  split; [reflexivity|].
  split; [vm_compute; reflexivity|].
  split; vm_compute; reflexivity.
Qed.

(** C6, as the code has it.  With a positive interval, on both
    variants a call returns NULL exactly when its counter read fails or
    its static holds 0 on entry; it never faults, and it attempts the
    read at most once.  On Linux the read fails exactly when the path
    does not fit the buffer, the file cannot be opened, the input ends
    early, or the text is not a number; on BSD exactly when getifaddrs
    fails or no node of the list is counted.  The static is tied to the
    history of the process: after any run of calls from a fresh
    process, the next call returns NULL exactly when its read fails, or
    no read of its direction has succeeded so far, or the last one that
    succeeded read the value 0, whichever interface it named; on BSD
    this is stated for the runs in which no call found its interface
    missing from the list. *)
Theorem null_exactly_when_unreadable_or_unset :
  forall (fmt_human : Z -> Z -> string) (interval : Z),
  0 < interval ->
  (forall d o i w,
     (fst (Linux.netspeed fmt_human interval d o i w) = Returned None
      <-> Linux.sample_counter o d i = None \/ sample_of d w = 0)
     /\ fst (Linux.netspeed fmt_human interval d o i w) <> Fault
     /\ (reads (snd (Linux.netspeed fmt_human interval d o i w))
         <= S (reads w))%nat)
  /\ (forall d o i,
     Linux.sample_counter o d i = None
     <-> esnprintf PATH_MAX (Linux.counter_path d i) < 0
         \/ Linux.fscanf_ju o (Linux.counter_path d i) = OpenFailed
         \/ Linux.fscanf_ju o (Linux.counter_path d i) = InputFailure
         \/ Linux.fscanf_ju o (Linux.counter_path d i) = MatchFailure)
  /\ (forall d o i w,
     (fst (BSD.netspeed fmt_human interval d o i w) = Returned None
      <-> BSD.sample_counter o d i = None \/ sample_of d w = 0)
     /\ fst (BSD.netspeed fmt_human interval d o i w) <> Fault
     /\ reads (snd (BSD.netspeed fmt_human interval d o i w)) = S (reads w))
  /\ (forall d o i,
     BSD.sample_counter o d i = None
     <-> BSD.getifaddrs o = None
         \/ exists ifal, BSD.getifaddrs o = Some ifal
                         /\ existsb (BSD.counted i) ifal = false)
  /\ (forall d ticks o i,
     fst (Linux.netspeed fmt_human interval d o i
            (snd (Linux.run fmt_human interval ticks initial_world)))
     = Returned None
     <-> Linux.sample_counter o d i = None
         \/ last_read Linux.sample_counter d ticks = None
         \/ last_read Linux.sample_counter d ticks = Some 0)
  /\ (forall d ticks o i,
     Forall (fun t => Linux.call_dir (snd t) = d ->
                      BSD.getifaddrs (fst t) = None
                      \/ BSD.sample_counter (fst t) d
                           (Linux.call_interface (snd t)) <> None) ticks ->
     (fst (BSD.netspeed fmt_human interval d o i
             (snd (bsd_run fmt_human interval ticks initial_world)))
      = Returned None
      <-> BSD.sample_counter o d i = None
          \/ last_read BSD.sample_counter d ticks = None
          \/ last_read BSD.sample_counter d ticks = Some 0)).
Proof.
  intros fmt_human interval Hpos.
  assert (Hi : (interval =? 0) = false) by (apply Z.eqb_neq; lia).
  assert (Hfresh : forall d, sample_of d initial_world = 0)
    by (intros []; reflexivity).
  assert (Hhist : forall (read : option Z) (last : option Z),
    (match read with
     | None => Returned None
     | Some cur =>
         if match last with Some v => v | None => 0 end =? 0
         then Returned None
         else Returned (Some (fmt_human
                (netspeed_rate cur match last with Some v => v | None => 0 end
                   interval) 1024))
     end = Returned None)
    <-> read = None \/ last = None \/ last = Some 0).
  { intros [cur|] [v|]; simpl;
      try destruct (Z.eqb_spec v 0); subst; split; intros H; auto;
      try discriminate;
      destruct H as [H|[H|H]]; try discriminate; congruence. }
  split; [|split; [|split; [|split; [|split]]]].
  - intros d o i w. rewrite linux_result, linux_reads, Hi.
    split; [|split].
    + destruct (Linux.sample_counter o d i) as [cur|];
        destruct (Z.eqb_spec (sample_of d w) 0); split; intros H;
        auto; try discriminate; destruct H; congruence.
    + destruct (Linux.sample_counter o d i) as [cur|];
        destruct (sample_of d w =? 0); discriminate.
    + destruct (esnprintf PATH_MAX _ <? 0); lia.
  - intros d o i. unfold Linux.sample_counter.
    destruct (Z.ltb_spec (esnprintf PATH_MAX (Linux.counter_path d i)) 0).
    + split; auto.
    + destruct (Linux.fscanf_ju o (Linux.counter_path d i));
        split; intros H'; auto; try discriminate;
        destruct H' as [H'|[H'|[H'|H']]]; try discriminate; lia.
  - intros d o i w. rewrite bsd_result, bsd_reads, Hi.
    split; [|split].
    + destruct (BSD.sample_counter o d i) as [cur|];
        destruct (Z.eqb_spec (sample_of d w) 0); split; intros H;
        auto; try discriminate; destruct H; congruence.
    + destruct (BSD.sample_counter o d i) as [cur|];
        destruct (sample_of d w =? 0); discriminate.
    + reflexivity.
  - intros d o i. unfold BSD.sample_counter.
    destruct (BSD.getifaddrs o) as [ifal|].
    + destruct (existsb (BSD.counted i) ifal) eqn:Hex; split; intros H.
      * discriminate.
      * destruct H as [H|[l [Hl Hno]]]; [discriminate|].
        injection Hl as <-. congruence.
      * right. now exists ifal.
      * reflexivity.
    + split; auto.
  - intros d ticks o i.
    rewrite linux_result, run_last_sample, last_sample_last_read, Hfresh, Hi.
    apply Hhist.
  - intros d ticks o i Hall.
    rewrite bsd_result, (bsd_run_last_read fmt_human interval d ticks Hall),
      Hfresh, Hi.
    apply Hhist.
Qed.

(** With a sample remembered and the file readable, a string comes
    back; with the interface gone, NULL does. *)
Lemma null_exactly_when_unreadable_or_unset_witness :
  0 < 1000
  /\ fst (Linux.netspeed fmt_human_model 1000 Rx (eth0_at 1550000) "eth0"
            (mkWorld 500000 0 []))
     <> Returned None
  /\ fst (Linux.netspeed fmt_human_model 1000 Rx (eth0_at 1550000) "wlan0"
            (mkWorld 500000 0 []))
     = Returned None
  /\ fst (Linux.netspeed fmt_human_model 1000 Rx (eth0_at 1550000) "eth0"
            (snd (Linux.run fmt_human_model 1000
                    [poll_rx (eth0_at 500000) "eth0"] initial_world)))
     <> Returned None
  /\ fst (BSD.netspeed fmt_human_model 1000 Rx (em0_at 1550000 0) "em0"
            (snd (bsd_run fmt_human_model 1000
                    [poll_bsd (em0_at 500000 0) "em0"] initial_world)))
     <> Returned None.
Proof.
  split; [lia|].
  destruct (null_exactly_when_unreadable_or_unset fmt_human_model 1000
              ltac:(lia)) as (Hlinux & _ & _ & _ & Hrun & Hbsd).
  split; [|split; [|split]].
  - intros Hnull.
    destruct (Hlinux Rx (eth0_at 1550000) "eth0"%string
                (mkWorld 500000 0 [])) as ([Hcause _] & _).
    destruct (Hcause Hnull) as [Hread|Hold].
    + vm_compute in Hread. discriminate.
    + vm_compute in Hold. discriminate.
  - apply (proj1 (Hlinux Rx (eth0_at 1550000) "wlan0"%string
                    (mkWorld 500000 0 []))).
    left. vm_compute. reflexivity.
  - intros Hnull.
    apply (Hrun Rx [poll_rx (eth0_at 500000) "eth0"]) in Hnull.
    destruct Hnull as [H|[H|H]]; vm_compute in H; discriminate.
  - intros Hnull.
    apply (Hbsd Rx [poll_bsd (em0_at 500000 0) "em0"]) in Hnull.
    + destruct Hnull as [H|[H|H]]; vm_compute in H; discriminate.
    + constructor; [|constructor].
      intros _. right. vm_compute. discriminate.
Defined.

(** C6 as stated fails.  From a fresh process eth0 is read twice with
    success, 0 and then 1550000: at the second call the source is
    readable and a previous sample exists, and NULL is returned.  And
    with eth0 and wlan0 polled in turn, the first poll of wlan0 returns
    a rate although no sample of wlan0 was taken before. *)
Lemma null_exactly_when_unreadable_or_unset_counterexample :
  Linux.sample_counter (eth0_at 0) Rx "eth0" = Some 0
  /\ Linux.sample_counter (eth0_at 1550000) Rx "eth0" = Some 1550000
  /\ fst (Linux.run fmt_human_model 1000
            [poll_rx (eth0_at 0) "eth0"; poll_rx (eth0_at 1550000) "eth0"]
            initial_world)
     = [Returned None; Returned None]
  /\ firstn 2 (fst (Linux.run fmt_human_model 1000 interleaved_polls
                      initial_world))
     = [Returned None; Returned (Some "3.9K"%string)].
Proof.
  split; [vm_compute; reflexivity|].
  split; [vm_compute; reflexivity|].
  split; vm_compute; reflexivity.
Qed.
